(** * BC Commercial Solar Platform: the calculation engine and its cache

    A shallow embedding of [client/src/lib/solar-calculations.ts]
    ([calculateCommercialSolar]) and of [client/src/lib/calculation-cache.ts]
    ([CalculationCache]), followed by the properties of the specification
    that concern them.

    Modelling choices.
    - A JavaScript [number] is an IEEE-754 binary64 value: Rocq's primitive
      [float], whose [+ - * /] round to nearest-even exactly like the
      JavaScript operators.  Decimal literals denote the nearest double, as
      in JavaScript.
    - A JavaScript string is a [string] of 8-bit characters; [toLowerCase]
      is the ASCII case mapping (the keys of the tables are ASCII).
    - [Date.now()] is an integer number of milliseconds, a [Z]; every read
      of the clock is an explicit argument of the operation that performs it.
    - The module-level singleton [calculationCache] is threaded explicitly:
      an operation takes the table and returns the new table.  A result
      object is a value: callers do not write to the object a call returns
      (the table keeps a reference to it).
    - A thrown [Error] is the left injection of a sum.  The input is a
      record of the type [SolarCalculationInputs] declares (three numbers,
      five strings), so the test [!inputs || typeof inputs !== 'object'] of
      line 63 never fires and is left out. *)

From Stdlib Require Import ZArith Floats Uint63 String Ascii Bool.
From stdpp Require Import gmap strings.

Set Warnings "-inexact-float".

(** ** JavaScript values used by the two modules *)

Module JS.

Abbreviation number := float (only parsing).

(** [!s] is true exactly for the empty string. *)
Definition falsy_string (s : string) : bool := String.eqb s "".

(** [!x] for a number: [0], [-0] and [NaN] are falsy. *)
Definition falsy_number (x : number) : bool :=
  (PrimFloat.is_zero x || PrimFloat.is_nan x)%bool.

Definition lower_ascii (a : ascii) : ascii :=
  let n := nat_of_ascii a in
  if ((65 <=? n) && (n <=? 90))%nat then ascii_of_nat (n + 32) else a.

(** The ASCII case mapping.  [String.prototype.toLowerCase] is defined on
    Unicode: on a string of ASCII characters the two agree; on other
    characters they need not (JavaScript maps U+212A KELVIN SIGN to [k]),
    and the theorems below say nothing of such strings beyond what holds
    for every case mapping. *)
Fixpoint toLowerCase (s : string) : string :=
  match s with
  | EmptyString => EmptyString
  | String a r => String (lower_ascii a) (toLowerCase r)
  end.

(** [Math.round]: the closest integer, ties towards +infinity; NaN, the
    infinities and the zeros are returned unchanged, and a result of zero
    keeps the sign of the argument.  A finite double is [m * 2^e]; for
    [e >= 0] it is already an integer, otherwise the integer is
    [floor (m / 2^(-e) + 1/2)], below [2^53] in magnitude and so exactly
    representable. *)
Definition Math_round (x : number) : number :=
  match Prim2SF x with
  | S754_finite s m e =>
      if (0 <=? e)%Z then x
      else
        let k := (- e)%Z in
        let n := (if s then Z.neg m else Z.pos m) in
        let r := ((2 * n + 2 ^ k) / 2 ^ (k + 1))%Z in
        if (r =? 0)%Z then (if s then PrimFloat.neg_zero else PrimFloat.zero)
        else if (r <? 0)%Z
             then PrimFloat.opp (PrimFloat.of_uint63 (Uint63.of_Z (- r)))
             else PrimFloat.of_uint63 (Uint63.of_Z r)
  | _ => x
  end.

(** [Math.min] of two numbers: NaN if either is NaN, and [-0] is smaller
    than [+0]. *)
Definition Math_min (a b : number) : number :=
  if (PrimFloat.is_nan a || PrimFloat.is_nan b)%bool then PrimFloat.nan
  else if PrimFloat.ltb a b then a
  else if PrimFloat.ltb b a then b
  else if PrimFloat.get_sign a then a else b.

(** What a property read [table[key]] on an object literal of numbers
    yields: the own property, a member inherited from [Object.prototype]
    (a function or an object: truthy, and NaN in arithmetic), or
    [undefined]. *)
Inductive value :=
| Undefined
| Num (x : number)
| Inherited.

(** The property names every object literal inherits. *)
Definition Object_prototype_keys : list string :=
  [ "constructor"; "__proto__"; "hasOwnProperty"; "isPrototypeOf";
    "propertyIsEnumerable"; "toLocaleString"; "toString"; "valueOf";
    "__defineGetter__"; "__defineSetter__"; "__lookupGetter__";
    "__lookupSetter__" ]%string.

Fixpoint own (table : list (string * number)) (key : string) : option number :=
  match table with
  | [] => None
  | (k, v) :: rest => if String.eqb k key then Some v else own rest key
  end.

Definition inherited (key : string) : bool :=
  existsb (String.eqb key) Object_prototype_keys.

Definition get (table : list (string * number)) (key : string) : value :=
  match own table key with
  | Some v => Num v
  | None => if inherited key then Inherited else Undefined
  end.

(** [v || d] where [d] is a number. *)
Definition or_else (v : value) (d : number) : value :=
  match v with
  | Undefined => Num d
  | Num x => if falsy_number x then Num d else Num x
  | Inherited => Inherited
  end.

(** [s || d] on strings. *)
Definition or_else_string (s d : string) : string :=
  if falsy_string s then d else s.

(** The number a value stands for in an arithmetic expression. *)
Definition ToNumber (v : value) : number :=
  match v with
  | Num x => x
  | Undefined | Inherited => PrimFloat.nan
  end.

(** [Math.floor]: the greatest integer not above the argument; NaN, the
    infinities and the zeros are returned unchanged.  A result of zero comes
    from an argument in (0, 1) and is [+0]. *)
Definition Math_floor (x : number) : number :=
  match Prim2SF x with
  | S754_finite s m e =>
      if (0 <=? e)%Z then x
      else
        let k := (- e)%Z in
        let n := (if s then Z.neg m else Z.pos m) in
        let r := (n / 2 ^ k)%Z in
        if (r =? 0)%Z then PrimFloat.zero
        else if (r <? 0)%Z
             then PrimFloat.opp (PrimFloat.of_uint63 (Uint63.of_Z (- r)))
             else PrimFloat.of_uint63 (Uint63.of_Z r)
  | _ => x
  end.

(** [Math.max] of two numbers: NaN if either is NaN, and [+0] is larger
    than [-0]. *)
Definition Math_max (a b : number) : number :=
  if (PrimFloat.is_nan a || PrimFloat.is_nan b)%bool then PrimFloat.nan
  else if PrimFloat.ltb a b then b
  else if PrimFloat.ltb b a then a
  else if PrimFloat.get_sign a then b else a.

End JS.

Import JS.

(** ** The calculation engine: [solar-calculations.ts] *)

Record SolarCalculationInputs := {
  systemSize : number;        (* kW *)
  monthlyUsage : number;      (* kWh *)
  currentBill : number;       (* CAD *)
  rateTier : string;
  installationType : string;
  panelQuality : string;
  batteryStorage : string;
  location : string
}.

Module Results.
Record t := mk {
  systemSize : number;
  annualProduction : number;
  totalCost : number;
  cleanBcRebates : number;
  federalIncentives : number;
  netCost : number;
  annualSavings : number;
  paybackPeriod : number;
  roi25Year : number;
  co2OffsetAnnual : number
}.
End Results.

Abbreviation SolarCalculationResults := Results.t (only parsing).

(** BC solar irradiance data (kWh/m2/day by region). *)
Definition BC_SOLAR_IRRADIANCE : list (string * number) :=
  [ ("vancouver", 3.2); ("victoria", 3.5); ("kelowna", 3.8); ("kamloops", 3.6);
    ("prince_george", 3.1); ("default", 3.3) ]%float.

(** Commercial electricity rates by tier (CAD/kWh). *)
Definition BC_COMMERCIAL_RATES : list (string * number) :=
  [ ("Small General Service", 0.1139); ("Medium General Service", 0.1059);
    ("Large General Service", 0.0879); ("Transmission Service", 0.0759) ]%float.

(** The messages of the two [throw new Error(...)] statements the typed
    input can reach. *)
Inductive Error :=
| MustBePositive      (* System size, monthly usage, and current bill must be positive numbers *)
| OptionsNotSelected. (* All configuration options must be selected *)

(** Lines 78-85: [None] when no error is thrown. *)
Definition validate (inputs : SolarCalculationInputs) : option Error :=
  if ((systemSize inputs <=? 0)%float || (monthlyUsage inputs <=? 0)%float
      || (currentBill inputs <=? 0)%float)%bool
  then Some MustBePositive
  else if (falsy_string (rateTier inputs) || falsy_string (installationType inputs)
           || falsy_string (panelQuality inputs) || falsy_string (batteryStorage inputs))%bool
  then Some OptionsNotSelected
  else None.

(** The [const] and [let] bindings of lines 87-185, each as a function of
    the inputs, under the name it has in the source. *)
Module Local.
Section Bindings.
Variable inputs : SolarCalculationInputs.
Local Open Scope float_scope.

Definition locationKey : string :=
  or_else_string (toLowerCase (location inputs)) "default".

Definition irradiance : number :=
  ToNumber (or_else (JS.get BC_SOLAR_IRRADIANCE locationKey)
                    (ToNumber (JS.get BC_SOLAR_IRRADIANCE "default"))).

Definition systemEfficiency : number :=
  let systemEfficiency := 0.85 in
  let systemEfficiency :=
    if String.eqb (panelQuality inputs) "High Efficiency" then systemEfficiency * 1.1
    else if String.eqb (panelQuality inputs) "Premium Tier 1" then systemEfficiency * 1.15
    else systemEfficiency in
  if String.eqb (installationType inputs) "Ground-Mount" then systemEfficiency * 1.05
  else if String.eqb (installationType inputs) "Tracker System" then systemEfficiency * 1.25
  else systemEfficiency.

Definition peakSunHours : number := irradiance * 365.

Definition annualProduction : number :=
  systemSize inputs * peakSunHours * systemEfficiency.

Definition baseCostPerKw : number :=
  let baseCostPerKw := 1750 in
  let baseCostPerKw :=
    if String.eqb (installationType inputs) "Ground-Mount" then baseCostPerKw * 1.1
    else if String.eqb (installationType inputs) "Carport/Canopy" then baseCostPerKw * 1.3
    else if String.eqb (installationType inputs) "Tracker System" then baseCostPerKw * 1.5
    else baseCostPerKw in
  if String.eqb (panelQuality inputs) "High Efficiency" then baseCostPerKw * 1.15
  else if String.eqb (panelQuality inputs) "Premium Tier 1" then baseCostPerKw * 1.25
  else baseCostPerKw.

Definition totalCost : number :=
  let totalCost := systemSize inputs * baseCostPerKw in
  if String.eqb (batteryStorage inputs) "50kWh Commercial Battery" then totalCost + 75000
  else if String.eqb (batteryStorage inputs) "100kWh Commercial Battery" then totalCost + 140000
  else if String.eqb (batteryStorage inputs) "200kWh+ Custom Solution" then totalCost + 250000
  else totalCost.

Definition cleanBcRebates : number :=
  if ((20 <=? systemSize inputs) && (systemSize inputs <=? 100))%bool
  then Math_min (systemSize inputs * 500) 50000
  else if 100 <? systemSize inputs
  then Math_min (systemSize inputs * 400) 125000
  else 0.

Definition federalIncentives : number := totalCost * 0.30.

Definition netCost : number := totalCost - cleanBcRebates - federalIncentives.

Definition energyRate : number :=
  ToNumber (or_else (JS.get BC_COMMERCIAL_RATES (rateTier inputs))
                    (ToNumber (JS.get BC_COMMERCIAL_RATES "Medium General Service"))).

Definition annualSavings : number := annualProduction * energyRate.

Definition paybackPeriod : number := netCost / annualSavings.

Definition totalSavings25Year : number := annualSavings * 25.

Definition roi25Year : number := ((totalSavings25Year - netCost) / netCost) * 100.

Definition co2OffsetAnnual : number := (annualProduction * 0.42) / 1000.
End Bindings.
End Local.

(** Lines 187-198: the object literal [result]. *)
Definition result (inputs : SolarCalculationInputs) : SolarCalculationResults :=
  {| Results.systemSize := systemSize inputs;
     Results.annualProduction := Math_round (Local.annualProduction inputs);
     Results.totalCost := Math_round (Local.totalCost inputs);
     Results.cleanBcRebates := Math_round (Local.cleanBcRebates inputs);
     Results.federalIncentives := Math_round (Local.federalIncentives inputs);
     Results.netCost := Math_round (Local.netCost inputs);
     Results.annualSavings := Math_round (Local.annualSavings inputs);
     Results.paybackPeriod := (Math_round (Local.paybackPeriod inputs * 10) / 10)%float;
     Results.roi25Year := (Math_round (Local.roi25Year inputs * 10) / 10)%float;
     Results.co2OffsetAnnual := (Math_round (Local.co2OffsetAnnual inputs * 10) / 10)%float |}.

(** The body of [calculateCommercialSolar] below the cache lookup and
    without the final [calculationCache.set]: validation, then the result. *)
Definition compute (inputs : SolarCalculationInputs) : Error + SolarCalculationResults :=
  match validate inputs with
  | Some e => inl e
  | None => inr (result inputs)
  end.

(** Lines 206-221.  The object literal [roofAreaFactors] of
    [estimateRoofArea]: the usable share of the floor area by building type. *)
Definition roofAreaFactors : list (string * number) :=
  [ ("Manufacturing", 0.7); ("Warehouse/Distribution", 0.8);
    ("Retail/Commercial", 0.5); ("Office Building", 0.6); ("Healthcare", 0.4);
    ("Education", 0.5); ("Agriculture", 0.6); ("Other", 0.5) ]%float.

Definition estimateRoofArea (buildingSquareFootage : number) (buildingType : string)
  : number :=
  let factor := or_else (JS.get roofAreaFactors buildingType) 0.5 in
  Math_round (buildingSquareFootage * ToNumber factor)%float.

(** Lines 223-246. *)
Definition optimizeSystemSize (availableRoofArea monthlyUsage peakDemand : number)
  : number :=
  let panelArea := 20%float in
  let panelCapacity := 0.35%float in
  let maxPanels := Math_floor (availableRoofArea / panelArea)%float in
  let maxSystemSize := (maxPanels * panelCapacity)%float in
  let annualUsage := (monthlyUsage * 12)%float in
  let productionFactor := 1200%float in
  let optimalSystemSize := (annualUsage / productionFactor)%float in
  let recommendedSize := Math_min maxSystemSize (optimalSystemSize * 0.9)%float in
  Math_max 20 (Math_round (recommendedSize / 5) * 5)%float.

(** ** The result cache: [calculation-cache.ts] *)

Module JSON.

(** How [JSON.stringify] spells a number: NaN and the infinities are
    spelled [null] ([None]); both zeros are spelled [0]; any other double
    gets the shortest decimal that reads back as that double, so the
    spelling determines the double.  The spelling is represented by the
    signed mantissa and the exponent of the double it determines. *)
Definition number_token (x : number) : option (Z * Z) :=
  match Prim2SF x with
  | S754_zero _ => Some (0, 0)%Z
  | S754_finite s m e => Some (if s then Z.neg m else Z.pos m, e)
  | S754_infinity _ | S754_nan => None
  end.

End JSON.

Record CacheEntry := {
  entry_result : SolarCalculationResults;
  timestamp : Z
}.

Module CalculationCache.

(** The text [JSON.stringify] produces for the eight-field object literal
    of [generateKey] has a fixed layout: the field names in a fixed order,
    each number spelled as in [JSON.number_token], each string quoted and
    escaped, which is injective.  Two such texts are equal exactly when the
    eight spelled fields are equal, so the key is the tuple of the spelled
    fields, in the order of the source. *)
Abbreviation key :=
  (option (Z * Z) * option (Z * Z) * option (Z * Z)
   * string * string * string * string * string)%type (only parsing).

Abbreviation t := (gmap key CacheEntry) (only parsing).

Definition CACHE_DURATION : Z := 5 * 60 * 1000.

Definition generateKey (inputs : SolarCalculationInputs) : key :=
  (JSON.number_token (systemSize inputs),
   JSON.number_token (monthlyUsage inputs),
   JSON.number_token (currentBill inputs),
   rateTier inputs,
   installationType inputs,
   panelQuality inputs,
   batteryStorage inputs,
   location inputs).

(** [get]: [now] is what [Date.now()] returns inside the call. *)
Definition get (now : Z) (inputs : SolarCalculationInputs) (cache : t)
  : option SolarCalculationResults * t :=
  let key := generateKey inputs in
  match cache !! key with
  | None => (None, cache)
  | Some entry =>
      if (CACHE_DURATION <? now - timestamp entry)%Z
      then (None, delete key cache)
      else (Some (entry_result entry), cache)
  end.

(** [cleanup]: [now] is its own read of the clock. *)
Definition cleanup (now : Z) (cache : t) : t :=
  filter (fun kv => (CACHE_DURATION <? now - timestamp (snd kv))%Z = false) cache.

(** [set]: [now] is the clock read that stamps the entry, [now'] the one
    [cleanup] performs when it runs. *)
Definition set (now now' : Z) (inputs : SolarCalculationInputs)
           (result : SolarCalculationResults) (cache : t) : t :=
  let key := generateKey inputs in
  let cache := <[ key := {| entry_result := result; timestamp := now |} ]> cache in
  if (100 <? Z.of_nat (size cache))%Z then cleanup now' cache else cache.

Definition clear (cache : t) : t := ∅.

End CalculationCache.

(** ** [calculateCommercialSolar], with the cache in front

    [t_get], [t_set] and [t_cleanup] are the successive reads of the clock
    the call may perform. *)
Definition calculateCommercialSolar (t_get t_set t_cleanup : Z)
           (inputs : SolarCalculationInputs) (cache : CalculationCache.t)
  : (Error + SolarCalculationResults) * CalculationCache.t :=
  match CalculationCache.get t_get inputs cache with
  | (Some cachedResult, cache) => (inr cachedResult, cache)
  | (None, cache) =>
      match validate inputs with
      | Some e => (inl e, cache)
      | None =>
          let result := result inputs in
          (inr result, CalculationCache.set t_set t_cleanup inputs result cache)
      end
  end.

(** The states of the singleton: empty when the module is loaded, then
    changed only by calls of [calculateCommercialSolar] (the only user of
    [calculationCache] in the repository) and by [clear]. *)
Inductive reachable : CalculationCache.t -> Prop :=
| reachable_new : reachable ∅
| reachable_call t_get t_set t_cleanup inputs cache :
    reachable cache ->
    reachable (snd (calculateCommercialSolar t_get t_set t_cleanup inputs cache))
| reachable_clear cache :
    reachable cache -> reachable (CalculationCache.clear cache).

(** A number that is finite (neither NaN nor an infinity) and positive. *)
Definition finite_positive (x : number) : Prop :=
  PrimFloat.is_finite x = true /\ (0 <? x)%float = true.

(** A valid input: the three numbers are finite and positive and the four
    options are selected. *)
Definition valid_input (inputs : SolarCalculationInputs) : Prop :=
  finite_positive (systemSize inputs) /\
  finite_positive (monthlyUsage inputs) /\
  finite_positive (currentBill inputs) /\
  rateTier inputs <> "" /\ installationType inputs <> "" /\
  panelQuality inputs <> "" /\ batteryStorage inputs <> "".

(** The three numbers are finite: none is spelled [null] in the key. *)
Definition finite_numbers (inputs : SolarCalculationInputs) : Prop :=
  PrimFloat.is_finite (systemSize inputs) = true /\
  PrimFloat.is_finite (monthlyUsage inputs) = true /\
  PrimFloat.is_finite (currentBill inputs) = true.

(** Every entry of the table holds the result of an input that satisfies
    [P], under the key of that input. *)
Definition cache_from (P : SolarCalculationInputs -> Prop) (cache : CalculationCache.t) : Prop :=
  forall k e, cache !! k = Some e ->
    exists inputs, CalculationCache.generateKey inputs = k /\
                   P inputs /\
                   entry_result e = result inputs.

(** Every entry of the table was stored by a call that passed validation,
    under the key of that call's input and with that call's result. *)
Definition cache_sound : CalculationCache.t -> Prop :=
  cache_from (fun inputs => validate inputs = None).

(** An input as the data model of the specification words it: the three
    numbers are [> 0] and the four options are selected. *)
Definition positive_input (inputs : SolarCalculationInputs) : Prop :=
  (0 <? systemSize inputs)%float = true /\
  (0 <? monthlyUsage inputs)%float = true /\
  (0 <? currentBill inputs)%float = true /\
  rateTier inputs <> "" /\ installationType inputs <> "" /\
  panelQuality inputs <> "" /\ batteryStorage inputs <> "".

(** The states of the singleton when every call so far had such an input. *)
Inductive reachable_positive : CalculationCache.t -> Prop :=
| reachable_positive_new : reachable_positive ∅
| reachable_positive_call t_get t_set t_cleanup inputs cache :
    reachable_positive cache -> positive_input inputs ->
    reachable_positive (snd (calculateCommercialSolar t_get t_set t_cleanup inputs cache))
| reachable_positive_clear cache :
    reachable_positive cache -> reachable_positive (CalculationCache.clear cache).

(** ** The multipliers and the rebate tiers, as the specification words them *)

Module Spec.
Local Open Scope float_scope.

(** Panel quality: HighEfficiency x1.10, PremiumTier1 x1.15, otherwise 1. *)
Definition panelEfficiencyFactor (panelQuality : string) : number :=
  if String.eqb panelQuality "High Efficiency" then 1.1
  else if String.eqb panelQuality "Premium Tier 1" then 1.15
  else 1.

(** Installation type: GroundMount x1.05, Tracker x1.25, otherwise 1. *)
Definition installationEfficiencyFactor (installationType : string) : number :=
  if String.eqb installationType "Ground-Mount" then 1.05
  else if String.eqb installationType "Tracker System" then 1.25
  else 1.

(** Installation type on cost: GroundMount x1.10, Carport x1.30, Tracker x1.50. *)
Definition installationCostFactor (installationType : string) : number :=
  if String.eqb installationType "Ground-Mount" then 1.1
  else if String.eqb installationType "Carport/Canopy" then 1.3
  else if String.eqb installationType "Tracker System" then 1.5
  else 1.

(** Panel quality on cost: HighEfficiency x1.15, PremiumTier1 x1.25. *)
Definition panelCostFactor (panelQuality : string) : number :=
  if String.eqb panelQuality "High Efficiency" then 1.15
  else if String.eqb panelQuality "Premium Tier 1" then 1.25
  else 1.

(** The option values the [switch] statements of the engine name. *)
Definition named_installationType (s : string) : bool :=
  existsb (String.eqb s) ["Ground-Mount"; "Carport/Canopy"; "Tracker System"]%string.

Definition named_panelQuality (s : string) : bool :=
  existsb (String.eqb s) ["High Efficiency"; "Premium Tier 1"]%string.

Definition named_batteryStorage (s : string) : bool :=
  existsb (String.eqb s)
    ["50kWh Commercial Battery"; "100kWh Commercial Battery"; "200kWh+ Custom Solution"]%string.
End Spec.

Definition with_installationType (s : string) (i : SolarCalculationInputs) :=
  {| systemSize := systemSize i; monthlyUsage := monthlyUsage i; currentBill := currentBill i;
     rateTier := rateTier i; installationType := s; panelQuality := panelQuality i;
     batteryStorage := batteryStorage i; location := location i |}.

Definition with_panelQuality (s : string) (i : SolarCalculationInputs) :=
  {| systemSize := systemSize i; monthlyUsage := monthlyUsage i; currentBill := currentBill i;
     rateTier := rateTier i; installationType := installationType i; panelQuality := s;
     batteryStorage := batteryStorage i; location := location i |}.

Definition with_batteryStorage (s : string) (i : SolarCalculationInputs) :=
  {| systemSize := systemSize i; monthlyUsage := monthlyUsage i; currentBill := currentBill i;
     rateTier := rateTier i; installationType := installationType i;
     panelQuality := panelQuality i; batteryStorage := s; location := location i |}.

Definition with_systemSize (x : number) (i : SolarCalculationInputs) :=
  {| systemSize := x; monthlyUsage := monthlyUsage i; currentBill := currentBill i;
     rateTier := rateTier i; installationType := installationType i;
     panelQuality := panelQuality i; batteryStorage := batteryStorage i;
     location := location i |}.

(** ** Sample inputs *)

(** Example scenario 1 of the specification, for a region the irradiance
    table does not list. *)
Definition scenario1 : SolarCalculationInputs :=
  {| systemSize := 100; monthlyUsage := 5000; currentBill := 600;
     rateTier := "Medium General Service"; installationType := "Roof-Mount";
     panelQuality := "Standard"; batteryStorage := "None"; location := "Nanaimo" |}.

(** Example scenario 2 of the specification. *)
Definition scenario2 : SolarCalculationInputs :=
  {| systemSize := 500; monthlyUsage := 40000; currentBill := 4200;
     rateTier := "Large General Service"; installationType := "Tracker System";
     panelQuality := "Premium Tier 1"; batteryStorage := "200kWh+ Custom Solution";
     location := "Kelowna" |}.

Definition scenario1_result : SolarCalculationResults :=
  {| Results.systemSize := 100;
     Results.annualProduction := 102383;
     Results.totalCost := 175000;
     Results.cleanBcRebates := 50000;
     Results.federalIncentives := 52500;
     Results.netCost := 72500;
     Results.annualSavings := 10842;
     Results.paybackPeriod := 6.7;
     Results.roi25Year := 273.9;
     Results.co2OffsetAnnual := 43 |}.

(** A valid input with a system size that is not a whole number of kW. *)
Definition fractional_size : SolarCalculationInputs :=
  with_systemSize 20.0009765625 scenario1.

(** Scenario 1 with option values the engine does not name. *)
Definition unnamed_options : SolarCalculationInputs :=
  {| systemSize := 100; monthlyUsage := 5000; currentBill := 600;
     rateTier := "Medium General Service"; installationType := "Floating";
     panelQuality := "Bifacial"; batteryStorage := "Flywheel"; location := "Nanaimo" |}.

(** Premium Tier 1 panels on a 250 kW Ground-Mount installation in
    Vancouver. *)
Definition premium_ground_mount : SolarCalculationInputs :=
  {| systemSize := 250; monthlyUsage := 20000; currentBill := 2400;
     rateTier := "Medium General Service"; installationType := "Ground-Mount";
     panelQuality := "Premium Tier 1"; batteryStorage := "None";
     location := "Vancouver" |}.

(** The cache after one call with scenario 1 on the empty cache. *)
Definition after_scenario1 : CalculationCache.t :=
  snd (calculateCommercialSolar 0 0 0 scenario1 ∅).

(** Scenario 1 with an infinite system size, of either sign. *)
Definition infinite_size : SolarCalculationInputs := with_systemSize PrimFloat.infinity scenario1.

Definition minus_infinite_size : SolarCalculationInputs :=
  with_systemSize PrimFloat.neg_infinity scenario1.

(** Scenario 1 with a negative system size, and with another monthly usage
    and bill. *)
Definition negative_size : SolarCalculationInputs := with_systemSize (-5) scenario1.

Definition scenario1_other_bill : SolarCalculationInputs :=
  {| systemSize := 100; monthlyUsage := 12000; currentBill := 1500;
     rateTier := "Medium General Service"; installationType := "Roof-Mount";
     panelQuality := "Standard"; batteryStorage := "None"; location := "Nanaimo" |}.

(** Scenario 1 for Kelowna, spelled in two ways. *)
Definition kelowna_upper : SolarCalculationInputs :=
  {| systemSize := 100; monthlyUsage := 5000; currentBill := 600;
     rateTier := "Medium General Service"; installationType := "Roof-Mount";
     panelQuality := "Standard"; batteryStorage := "None"; location := "KELOWNA" |}.

Definition kelowna_lower : SolarCalculationInputs :=
  {| systemSize := 100; monthlyUsage := 5000; currentBill := 600;
     rateTier := "Medium General Service"; installationType := "Roof-Mount";
     panelQuality := "Standard"; batteryStorage := "None"; location := "kelowna" |}.

(** Scenario 1 with the rate tier [toString], and with a system size that
    is not a number. *)
Definition rate_tier_toString : SolarCalculationInputs :=
  {| systemSize := 100; monthlyUsage := 5000; currentBill := 600;
     rateTier := "toString"; installationType := "Roof-Mount";
     panelQuality := "Standard"; batteryStorage := "None"; location := "Nanaimo" |}.

Definition nan_size : SolarCalculationInputs := with_systemSize PrimFloat.nan scenario1.

(** The cache after one call with a system size that is not a number. *)
Definition after_nan_size : CalculationCache.t :=
  snd (calculateCommercialSolar 0 0 0 nan_size ∅).

(** The cache after a call with an infinite system size at time 0, and after
    a further call with a system size that is not a number, made once the
    first entry has expired. *)
Definition after_infinite_size : CalculationCache.t :=
  snd (calculateCommercialSolar 0 0 0 infinite_size ∅).

Definition after_nan_refill : CalculationCache.t :=
  snd (calculateCommercialSolar 300001 300001 300001 nan_size after_infinite_size).

(** * Properties *)

(** ** Numbers *)

Section Numbers.
Local Open Scope float_scope.

Lemma ltb_zero_inv x :
  (0 <? x) = true -> exists m e, Prim2SF x = S754_finite false m e \/ Prim2SF x = S754_infinity false.
Proof.
  rewrite FloatAxioms.ltb_spec. change (Prim2SF 0) with (S754_zero false).
  destruct (Prim2SF x) as [s|s| |s m e]; cbn; try discriminate.
  - destruct s; [discriminate|]. intros _. exists 1%positive, 0%Z. by right.
  - destruct s; [discriminate|]. intros _. exists m, e. by left.
Qed.

Lemma is_finite_not_infinity x s :
  PrimFloat.is_finite x = true -> Prim2SF x <> S754_infinity s.
Proof.
  unfold PrimFloat.is_finite, PrimFloat.is_infinity. intros H E.
  rewrite FloatAxioms.eqb_spec, FloatAxioms.abs_spec, E in H. cbn in H.
  rewrite orb_true_r in H. discriminate.
Qed.

(** A finite positive double has a non-null spelling with a positive
    mantissa. *)
Lemma number_token_finite_pos x :
  PrimFloat.is_finite x = true -> (0 <? x) = true ->
  exists m e, Prim2SF x = S754_finite false m e /\ JSON.number_token x = Some (Z.pos m, e).
Proof.
  intros Hf Hp. destruct (ltb_zero_inv x Hp) as (m & e & [H|H]).
  - exists m, e. split; [done|]. unfold JSON.number_token. by rewrite H.
  - by destruct (is_finite_not_infinity x false Hf).
Qed.

(** The spelling of a finite positive double is shared by no other
    double. *)
Lemma number_token_inj x y :
  PrimFloat.is_finite x = true -> (0 <? x) = true ->
  JSON.number_token x = JSON.number_token y -> x = y.
Proof.
  intros Hf Hp E. destruct (number_token_finite_pos x Hf Hp) as (m & e & Hx & Ht).
  rewrite Ht in E. apply Prim2SF_inj. rewrite Hx.
  unfold JSON.number_token in E.
  destruct (Prim2SF y) as [s|s| |s m' e']; try discriminate.
  destruct s; inversion E; subst; reflexivity.
Qed.

Lemma ltb_leb_false x : (0 <? x) = true -> (x <=? 0) = false.
Proof.
  intros Hp. destruct (ltb_zero_inv x Hp) as (m & e & [H|H]);
    rewrite FloatAxioms.leb_spec, H; reflexivity.
Qed.

Lemma SFcompare_antisym x y :
  SFcompare y x = option_map CompOpp (SFcompare x y).
Proof.
  destruct x as [[]|[]| |[] m e], y as [[]|[]| |[] m' e']; cbn; try reflexivity;
    rewrite (Z.compare_antisym e e'); destruct (e ?= e')%Z; cbn; try reflexivity;
    change (PosDef.Pos.compare_cont Eq m' m) with (Pos.compare m' m);
    change (PosDef.Pos.compare_cont Eq m m') with (Pos.compare m m');
    rewrite (Pos.compare_antisym m m'); reflexivity.
Qed.

(** [a < b] excludes [b <= a]. *)
Lemma ltb_not_leb a b : (a <? b) = true -> (b <=? a) = false.
Proof.
  rewrite FloatAxioms.ltb_spec, FloatAxioms.leb_spec. unfold SFltb, SFleb.
  rewrite (SFcompare_antisym (Prim2SF a) (Prim2SF b)).
  by destruct (SFcompare (Prim2SF a) (Prim2SF b)) as [[]|].
Qed.

(** Below 20 is not above 100. *)
Lemma ltb_20_not_above_100 x : (x <? 20) = true -> (100 <? x) = false.
Proof.
  rewrite !FloatAxioms.ltb_spec.
  change (Prim2SF 20) with (S754_finite false 5629499534213120 (-48)).
  change (Prim2SF 100) with (S754_finite false 7036874417766400 (-46)).
  unfold SFltb. destruct (Prim2SF x) as [[]|[]| |[] m e]; cbn [SFcompare]; try done.
  destruct (Z.compare_spec e (-48)) as [-> | Hlt | Hgt]; try done.
  - intros _. assert ((-46 ?= e)%Z = Gt) as -> by (apply Z.compare_gt_iff; lia).
    reflexivity.
Qed.

Lemma is_finite_not_nan x : PrimFloat.is_finite x = true -> Prim2SF x <> S754_nan.
Proof.
  unfold PrimFloat.is_finite, PrimFloat.is_nan. intros H E.
  rewrite FloatAxioms.eqb_spec, E in H. discriminate.
Qed.

(** A finite number that shares its spelling with a number that is not
    [<= 0] is not [<= 0] either. *)
Lemma leb_zero_token x x' :
  PrimFloat.is_finite x = true ->
  JSON.number_token x = JSON.number_token x' ->
  (x' <=? 0) = false -> (x <=? 0) = false.
Proof.
  intros Hf E. rewrite !FloatAxioms.leb_spec.
  pose proof (is_finite_not_nan x Hf) as Hn.
  pose proof (fun s => is_finite_not_infinity x s Hf) as Hi.
  unfold JSON.number_token in E. change (Prim2SF 0) with (S754_zero false).
  destruct (Prim2SF x) as [s|s| |s m e]; [|by destruct (Hi s)|done|];
    destruct (Prim2SF x') as [s'|s'| |s' m' e']; try discriminate E;
    cbn; destruct s, s'; try discriminate E; done.
Qed.

(** Two positive numbers with the same spelling are the same number: the
    only positive number spelled [null] is +Infinity. *)
Lemma number_token_inj_positive x y :
  (0 <? x) = true -> (0 <? y) = true ->
  JSON.number_token x = JSON.number_token y -> x = y.
Proof.
  intros Hx Hy E. apply Prim2SF_inj.
  destruct (ltb_zero_inv x Hx) as (m & e & [Ex|Ex]),
           (ltb_zero_inv y Hy) as (m' & e' & [Ey|Ey]);
    unfold JSON.number_token in E; rewrite Ex, Ey in *; try discriminate E.
  - by inversion E.
  - reflexivity.
Qed.
End Numbers.

(** [Math.round] and [Math.min] on the cases the standard singles out. *)
Example Math_round_samples :
  (Math_round 102382.5, Math_round 2.5, Math_round (-2.5), Math_round 0.49999999999999994,
   Math_round (-0.5), Math_round 10000.48828125, Math_round 9007199254740993,
   Math_round PrimFloat.nan, Math_round PrimFloat.infinity, Math_round 66.87)%float
  = (102383, 3, -2, 0, -0, 10000, 9007199254740992,
     PrimFloat.nan, PrimFloat.infinity, 67)%float.
Proof. vm_compute. reflexivity. Qed.

Example Math_min_samples :
  (Math_min 50000 50000, Math_min 40000 125000, Math_min 0 (-0),
   Math_min PrimFloat.nan 1, Math_min PrimFloat.infinity 125000)%float
  = (50000, 40000, -0, PrimFloat.nan, 125000)%float.
Proof. vm_compute. reflexivity. Qed.

Example toLowerCase_sample : toLowerCase "Prince_George" = "prince_george".
Proof. reflexivity. Qed.

(** ** The engine reads only [systemSize] and the five strings *)

Lemma result_ext i i' :
  systemSize i = systemSize i' ->
  rateTier i = rateTier i' ->
  installationType i = installationType i' ->
  panelQuality i = panelQuality i' ->
  batteryStorage i = batteryStorage i' ->
  location i = location i' ->
  result i = result i'.
Proof.
  destruct i, i'; cbn [systemSize rateTier installationType panelQuality batteryStorage location].
  intros -> -> -> -> -> ->. reflexivity.
Qed.

Lemma valid_input_validate i : valid_input i -> validate i = None.
Proof.
  intros ([_ Hs] & [_ Hm] & [_ Hb] & Hr & Hi & Hp & Hbat). unfold validate.
  rewrite !ltb_leb_false by assumption. cbn [orb].
  unfold falsy_string.
  apply String.eqb_neq in Hr, Hi, Hp, Hbat. by rewrite Hr, Hi, Hp, Hbat.
Qed.

(** Two inputs with the same key, one of which has a finite positive
    [systemSize], have the same result. *)
Lemma generateKey_result i i' :
  PrimFloat.is_finite (systemSize i) = true -> (0 <? systemSize i)%float = true ->
  CalculationCache.generateKey i = CalculationCache.generateKey i' ->
  result i = result i'.
Proof.
  intros Hf Hp E. unfold CalculationCache.generateKey in E.
  inversion E as [[Hs Hm Hb Hr Hi Hq Hbat Hl]].
  apply result_ext; try assumption. by apply number_token_inj.
Qed.

(** ** The table *)

Section Table.

Lemma cleanup_lookup (now : Z) (cache : CalculationCache.t) (k : CalculationCache.key) (e : CacheEntry) :
  CalculationCache.cleanup now cache !! k = Some e <->
  cache !! k = Some e /\ (now - timestamp e <= CalculationCache.CACHE_DURATION)%Z.
Proof.
  unfold CalculationCache.cleanup. rewrite map_lookup_filter_Some. cbn [snd].
  rewrite Z.ltb_ge. reflexivity.
Qed.

Lemma get_hit (now : Z) (i : SolarCalculationInputs) (cache : CalculationCache.t) (e : CacheEntry) :
  cache !! CalculationCache.generateKey i = Some e -> (now - timestamp e <= CalculationCache.CACHE_DURATION)%Z ->
  CalculationCache.get now i cache = (Some (entry_result e), cache).
Proof.
  intros H Hle. unfold CalculationCache.get. rewrite H.
  apply Z.ltb_ge in Hle. by rewrite Hle.
Qed.

Lemma get_stale (now : Z) (i : SolarCalculationInputs) (cache : CalculationCache.t) (e : CacheEntry) :
  cache !! CalculationCache.generateKey i = Some e -> (CalculationCache.CACHE_DURATION < now - timestamp e)%Z ->
  CalculationCache.get now i cache = (None, delete (CalculationCache.generateKey i) cache).
Proof.
  intros H Hlt. unfold CalculationCache.get. rewrite H.
  apply Z.ltb_lt in Hlt. by rewrite Hlt.
Qed.

Lemma get_absent (now : Z) (i : SolarCalculationInputs) (cache : CalculationCache.t) :
  cache !! CalculationCache.generateKey i = None -> CalculationCache.get now i cache = (None, cache).
Proof. intros H. unfold CalculationCache.get. by rewrite H. Qed.

(** A hit hands out the stored result of a live entry and leaves the
    table as it is. *)
Lemma get_Some (now : Z) (i : SolarCalculationInputs) (cache : CalculationCache.t) (r : SolarCalculationResults) (cache' : CalculationCache.t) :
  CalculationCache.get now i cache = (Some r, cache') ->
  cache' = cache /\
  exists e, cache !! CalculationCache.generateKey i = Some e /\ entry_result e = r /\
            (now - timestamp e <= CalculationCache.CACHE_DURATION)%Z.
Proof.
  unfold CalculationCache.get. destruct (cache !! CalculationCache.generateKey i) as [e|] eqn:E; [|discriminate].
  destruct (CalculationCache.CACHE_DURATION <? now - timestamp e)%Z eqn:L; [discriminate|].
  intros [= <- <-]. split; [done|]. exists e. by rewrite Z.ltb_ge in L.
Qed.

(** A miss leaves the table as it is, or without the stale entry of the key. *)
Lemma get_None (now : Z) (i : SolarCalculationInputs) (cache cache' : CalculationCache.t) :
  CalculationCache.get now i cache = (None, cache') ->
  cache' = cache \/ cache' = delete (CalculationCache.generateKey i) cache.
Proof.
  unfold CalculationCache.get. destruct (cache !! CalculationCache.generateKey i) as [e|] eqn:E.
  - destruct (CalculationCache.CACHE_DURATION <? now - timestamp e)%Z; [|discriminate].
    intros [= <-]. by right.
  - intros [= <-]. by left.
Qed.

Section Provenance.
Variable P : SolarCalculationInputs -> Prop.

Lemma cache_from_empty : cache_from P ∅.
Proof. intros k e H. by rewrite lookup_empty in H. Qed.

Lemma cache_from_delete (k : CalculationCache.key) (cache : CalculationCache.t) :
  cache_from P cache -> cache_from P (delete k cache).
Proof.
  intros Hs k' e H. apply lookup_delete_Some in H as [_ H]. by apply Hs.
Qed.

Lemma cache_from_cleanup (now : Z) (cache : CalculationCache.t) :
  cache_from P cache -> cache_from P (CalculationCache.cleanup now cache).
Proof.
  intros Hs k e H. apply cleanup_lookup in H as [H _]. by apply Hs.
Qed.

Lemma cache_from_set (now now' : Z) (i : SolarCalculationInputs)
      (cache : CalculationCache.t) :
  P i -> cache_from P cache ->
  cache_from P (CalculationCache.set now now' i (result i) cache).
Proof.
  intros Hv Hs. unfold CalculationCache.set.
  assert (cache_from P (<[CalculationCache.generateKey i :=
            {| entry_result := result i; timestamp := now |}]> cache)) as Hins.
  { intros k e H. apply lookup_insert_Some in H as [[<- <-]|[_ H]].
    - by exists i.
    - by apply Hs. }
  destruct (100 <? _)%Z; [by apply cache_from_cleanup | done].
Qed.

Lemma cache_from_get (now : Z) (i : SolarCalculationInputs) (cache : CalculationCache.t) :
  cache_from P cache -> cache_from P (snd (CalculationCache.get now i cache)).
Proof.
  intros Hs. destruct (CalculationCache.get now i cache) as [[r|] cache'] eqn:E; cbn [snd].
  - by apply get_Some in E as [-> _].
  - apply get_None in E as [-> | ->]; [done | by apply cache_from_delete].
Qed.

(** A call keeps the invariant when the inputs it stores satisfy [P]. *)
Lemma cache_from_call (t_get t_set t_cleanup : Z) (i : SolarCalculationInputs)
      (cache : CalculationCache.t) :
  (validate i = None -> P i) ->
  cache_from P cache ->
  cache_from P (snd (calculateCommercialSolar t_get t_set t_cleanup i cache)).
Proof.
  intros HP Hs. unfold calculateCommercialSolar.
  pose proof (cache_from_get t_get i cache Hs) as Hg.
  destruct (CalculationCache.get t_get i cache) as [[r|] cache']; cbn [snd] in *; [done|].
  destruct (validate i) eqn:Hv; cbn [snd]; [done|].
  apply cache_from_set; [by apply HP | done].
Qed.
End Provenance.
End Table.

Lemma reachable_sound (cache : CalculationCache.t) : reachable cache -> cache_sound cache.
Proof.
  induction 1 as [| t1 t2 t3 i cache _ IH | cache _ _].
  - apply cache_from_empty.
  - by apply cache_from_call.
  - apply cache_from_empty.
Qed.

Lemma reachable_positive_from (cache : CalculationCache.t) :
  reachable_positive cache -> cache_from positive_input cache.
Proof.
  induction 1 as [| t1 t2 t3 i cache _ IH Hi | cache _ _].
  - apply cache_from_empty.
  - by apply cache_from_call.
  - apply cache_from_empty.
Qed.

(** On a sound table, a hit for an input with a finite positive
    [systemSize] is the result the engine computes for it. *)
Lemma sound_hit (now : Z) (i : SolarCalculationInputs) (cache cache' : CalculationCache.t) (r : SolarCalculationResults) :
  cache_sound cache ->
  PrimFloat.is_finite (systemSize i) = true -> (0 <? systemSize i)%float = true ->
  CalculationCache.get now i cache = (Some r, cache') -> r = result i.
Proof.
  intros Hs Hf Hp E. apply get_Some in E as (_ & e & He & <- & _).
  destruct (Hs _ _ He) as (i' & Hk & _ & ->).
  symmetry. by apply generateKey_result.
Qed.

(** A call whose input passes validation and has a finite positive
    [systemSize] returns the engine's result for it, whatever the table
    holds and whatever the clock reads. *)
Lemma call_result (t_get t_set t_cleanup : Z) (i : SolarCalculationInputs)
      (cache : CalculationCache.t) :
  cache_sound cache -> validate i = None ->
  PrimFloat.is_finite (systemSize i) = true -> (0 <? systemSize i)%float = true ->
  fst (calculateCommercialSolar t_get t_set t_cleanup i cache) = inr (result i).
Proof.
  intros Hs Hv Hf Hp. unfold calculateCommercialSolar.
  destruct (CalculationCache.get t_get i cache) as [[r|] cache'] eqn:E.
  - cbn [fst]. f_equal. by eapply sound_hit.
  - rewrite Hv. reflexivity.
Qed.

Lemma call_valid (t_get t_set t_cleanup : Z) (i : SolarCalculationInputs)
      (cache : CalculationCache.t) :
  reachable cache -> valid_input i ->
  fst (calculateCommercialSolar t_get t_set t_cleanup i cache) = inr (result i).
Proof.
  intros Hr Hv. apply call_result.
  - by apply reachable_sound.
  - by apply valid_input_validate.
  - by destruct Hv as ([? ?] & _).
  - by destruct Hv as ([? ?] & _).
Qed.

(** ** The fallbacks of the two table lookups *)

Lemma irradiance_default (i : SolarCalculationInputs) :
  JS.get BC_SOLAR_IRRADIANCE (toLowerCase (location i)) = Undefined ->
  Local.irradiance i = 3.3%float.
Proof.
  intros H. unfold Local.irradiance, Local.locationKey, or_else_string, falsy_string.
  destruct (String.eqb (toLowerCase (location i)) "").
  - reflexivity.
  - rewrite H. reflexivity.
Qed.

Lemma energyRate_default (i : SolarCalculationInputs) :
  JS.get BC_COMMERCIAL_RATES (rateTier i) = Undefined ->
  Local.energyRate i = 0.1059%float.
Proof. intros H. unfold Local.energyRate. rewrite H. reflexivity. Qed.

(** The location enters the result through the irradiance only. *)
Lemma result_irradiance (i i' : SolarCalculationInputs) :
  systemSize i = systemSize i' ->
  rateTier i = rateTier i' ->
  installationType i = installationType i' ->
  panelQuality i = panelQuality i' ->
  batteryStorage i = batteryStorage i' ->
  Local.irradiance i = Local.irradiance i' ->
  result i = result i'.
Proof.
  intros Hs Hr Hi Hp Hb Hirr.
  unfold result, Local.paybackPeriod, Local.roi25Year, Local.totalSavings25Year,
    Local.co2OffsetAnnual, Local.netCost, Local.annualSavings, Local.federalIncentives,
    Local.cleanBcRebates, Local.totalCost, Local.baseCostPerKw, Local.annualProduction,
    Local.peakSunHours, Local.systemEfficiency, Local.energyRate.
  rewrite Hs, Hr, Hi, Hp, Hb, Hirr. reflexivity.
Qed.

(** Two double literals that differ. *)
Ltac float_discriminate :=
  let E := fresh in
  intros E; apply (f_equal Prim2SF) in E; vm_compute in E; discriminate E.

(** ** Scenario 1 *)

Lemma scenario1_valid : valid_input scenario1.
Proof. repeat split; try reflexivity; discriminate. Qed.

(** C1 (as amended).  For systemSize 100, a location the irradiance lookup
    does not resolve (so that 3.3 applies), Standard panels, Roof-Mount, no
    battery, the Medium General Service tier and any positive monthlyUsage
    and currentBill, every call of calculateCommercialSolar, on every state
    of the cache, returns annualProduction 102383, totalCost 175000,
    cleanBcRebates 50000, federalIncentives 52500, netCost 72500,
    annualSavings 10842 and paybackPeriod 6.7. *)
Theorem scenario1_returns (t_get t_set t_cleanup : Z) (cache : CalculationCache.t)
        (loc : string) (usage bill : number) :
  reachable cache ->
  JS.get BC_SOLAR_IRRADIANCE (toLowerCase loc) = Undefined ->
  (0 <? usage)%float = true -> (0 <? bill)%float = true ->
  fst (calculateCommercialSolar t_get t_set t_cleanup
         {| systemSize := 100; monthlyUsage := usage; currentBill := bill;
            rateTier := "Medium General Service"; installationType := "Roof-Mount";
            panelQuality := "Standard"; batteryStorage := "None"; location := loc |}
         cache)
  = inr scenario1_result.
Proof.
  intros Hr Hloc Hu Hb.
  rewrite call_result.
  - f_equal. rewrite (result_irradiance _ scenario1); try reflexivity.
    rewrite irradiance_default by exact Hloc. reflexivity.
  - by apply reachable_sound.
  - unfold validate. cbn [systemSize monthlyUsage currentBill rateTier installationType
                          panelQuality batteryStorage].
    rewrite (ltb_leb_false usage Hu), (ltb_leb_false bill Hb). reflexivity.
  - reflexivity.
  - reflexivity.
Qed.

Lemma scenario1_returns_witness :
  reachable ∅ /\
  JS.get BC_SOLAR_IRRADIANCE (toLowerCase "Nanaimo") = Undefined /\
  fst (calculateCommercialSolar 0 0 0 scenario1 ∅) = inr scenario1_result.
Proof.
  split; [exact reachable_new|]. split; [reflexivity|].
  exact (scenario1_returns 0 0 0 ∅ "Nanaimo" 5000 600
           reachable_new eq_refl eq_refl eq_refl).
Defined.

(** The figures the specification prints for scenario 1 (annualProduction
    102,424 and annualSavings 10,847) are not the ones returned. *)
Lemma scenario1_spec_figures :
  fst (calculateCommercialSolar 0 0 0 scenario1 ∅) = inr scenario1_result /\
  Results.annualProduction scenario1_result <> 102424%float /\
  Results.annualSavings scenario1_result <> 10847%float.
Proof.
  split; [vm_compute; reflexivity|]. split; cbn; float_discriminate.
Qed.

(** ** The provincial rebate *)

Lemma fractional_size_valid : valid_input fractional_size.
Proof. repeat split; try reflexivity; discriminate. Qed.

(** C2 (as amended).  For every valid input, the cleanBcRebates field a
    call returns is, rounded to the nearest whole CAD by Math.round,
    min(systemSize * 500, 50000) when 20 <= systemSize <= 100,
    min(systemSize * 400, 125000) when systemSize > 100, and 0 when
    systemSize < 20; at exactly 100 the lower tier applies and it is 50000. *)
Theorem rebate_tiers (t_get t_set t_cleanup : Z) (cache : CalculationCache.t)
        (i : SolarCalculationInputs) :
  reachable cache -> valid_input i ->
  exists r,
    fst (calculateCommercialSolar t_get t_set t_cleanup i cache) = inr r /\
    ((20 <=? systemSize i)%float = true -> (systemSize i <=? 100)%float = true ->
       Results.cleanBcRebates r = Math_round (Math_min (systemSize i * 500) 50000)) /\
    ((100 <? systemSize i)%float = true ->
       Results.cleanBcRebates r = Math_round (Math_min (systemSize i * 400) 125000)) /\
    ((systemSize i <? 20)%float = true -> Results.cleanBcRebates r = 0%float) /\
    (systemSize i = 100%float -> Results.cleanBcRebates r = 50000%float).
Proof.
  intros Hr Hv. exists (result i). split; [by apply call_valid|].
  cbn [result Results.cleanBcRebates]. unfold Local.cleanBcRebates.
  repeat split.
  - intros H1 H2. by rewrite H1, H2.
  - intros H. by rewrite (ltb_not_leb _ _ H), andb_false_r, H.
  - intros H. by rewrite (ltb_not_leb _ _ H), (ltb_20_not_above_100 _ H).
  - intros ->. vm_compute. reflexivity.
Qed.


Lemma rebate_tiers_witness :
  reachable ∅ /\ valid_input scenario1 /\
  exists r,
    fst (calculateCommercialSolar 0 0 0 scenario1 ∅) = inr r /\
    ((20 <=? systemSize scenario1)%float = true ->
     (systemSize scenario1 <=? 100)%float = true ->
       Results.cleanBcRebates r = Math_round (Math_min (systemSize scenario1 * 500) 50000)) /\
    ((100 <? systemSize scenario1)%float = true ->
       Results.cleanBcRebates r = Math_round (Math_min (systemSize scenario1 * 400) 125000)) /\
    ((systemSize scenario1 <? 20)%float = true -> Results.cleanBcRebates r = 0%float) /\
    (systemSize scenario1 = 100%float -> Results.cleanBcRebates r = 50000%float).
Proof.
  split; [exact reachable_new|]. split; [exact scenario1_valid|].
  exact (rebate_tiers 0 0 0 ∅ scenario1 reachable_new scenario1_valid).
Defined.

(** For a system of 20.0009765625 kW the call returns a rebate of 10000,
    which is not min(systemSize * 500, 50000) = 10000.48828125. *)
Lemma rebate_fractional_size :
  valid_input fractional_size /\
  (20 <=? systemSize fractional_size)%float = true /\
  (systemSize fractional_size <=? 100)%float = true /\
  fst (calculateCommercialSolar 0 0 0 fractional_size ∅) = inr (result fractional_size) /\
  Results.cleanBcRebates (result fractional_size) = 10000%float /\
  Math_min (systemSize fractional_size * 500) 50000 = 10000.48828125%float /\
  Results.cleanBcRebates (result fractional_size)
    <> Math_min (systemSize fractional_size * 500) 50000.
Proof.
  split; [exact fractional_size_valid|].
  repeat split; try (vm_compute; reflexivity).
  vm_compute. float_discriminate.
Qed.

(** ** Options the engine does not name *)

Lemma unnamed_installationType (i : SolarCalculationInputs) :
  Spec.named_installationType (installationType i) = false ->
  result i = result (with_installationType "Roof-Mount" i).
Proof.
  unfold Spec.named_installationType, Spec.named_batteryStorage. cbn [existsb].
  rewrite !orb_false_iff. intros (H1 & H2 & H3 & _).
  unfold result, Local.paybackPeriod, Local.roi25Year, Local.totalSavings25Year,
    Local.co2OffsetAnnual, Local.netCost, Local.annualSavings, Local.federalIncentives,
    Local.cleanBcRebates, Local.totalCost, Local.baseCostPerKw, Local.annualProduction,
    Local.peakSunHours, Local.systemEfficiency, Local.energyRate, Local.irradiance,
    Local.locationKey.
  cbn [with_installationType systemSize rateTier installationType panelQuality
       batteryStorage location String.eqb Ascii.eqb Bool.eqb].
  rewrite H1, H2, H3. reflexivity.
Qed.

Lemma unnamed_panelQuality (i : SolarCalculationInputs) :
  Spec.named_panelQuality (panelQuality i) = false ->
  result i = result (with_panelQuality "Standard" i).
Proof.
  unfold Spec.named_panelQuality. cbn [existsb].
  rewrite !orb_false_iff. intros (H1 & H2 & _).
  unfold result, Local.paybackPeriod, Local.roi25Year, Local.totalSavings25Year,
    Local.co2OffsetAnnual, Local.netCost, Local.annualSavings, Local.federalIncentives,
    Local.cleanBcRebates, Local.totalCost, Local.baseCostPerKw, Local.annualProduction,
    Local.peakSunHours, Local.systemEfficiency, Local.energyRate, Local.irradiance,
    Local.locationKey.
  cbn [with_panelQuality systemSize rateTier installationType panelQuality
       batteryStorage location String.eqb Ascii.eqb Bool.eqb].
  rewrite H1, H2. reflexivity.
Qed.

Lemma unnamed_batteryStorage (i : SolarCalculationInputs) :
  Spec.named_batteryStorage (batteryStorage i) = false ->
  result i = result (with_batteryStorage "None" i).
Proof.
  unfold Spec.named_installationType, Spec.named_batteryStorage. cbn [existsb].
  rewrite !orb_false_iff. intros (H1 & H2 & H3 & _).
  unfold result, Local.paybackPeriod, Local.roi25Year, Local.totalSavings25Year,
    Local.co2OffsetAnnual, Local.netCost, Local.annualSavings, Local.federalIncentives,
    Local.cleanBcRebates, Local.totalCost, Local.baseCostPerKw, Local.annualProduction,
    Local.peakSunHours, Local.systemEfficiency, Local.energyRate, Local.irradiance,
    Local.locationKey.
  cbn [with_batteryStorage systemSize rateTier installationType panelQuality
       batteryStorage location String.eqb Ascii.eqb Bool.eqb].
  rewrite H1, H2, H3. reflexivity.
Qed.

(** ** Inputs that fail validation *)

Lemma validate_same_key (i i' : SolarCalculationInputs) :
  finite_numbers i ->
  CalculationCache.generateKey i = CalculationCache.generateKey i' ->
  validate i' = None -> validate i = None.
Proof.
  intros (Hs & Hm & Hb) E. unfold CalculationCache.generateKey in E.
  inversion E as [[Es Em Eb Er Ei Ep Ebat El]].
  unfold validate. rewrite <- Er, <- Ei, <- Ep, <- Ebat.
  destruct (systemSize i' <=? 0)%float eqn:Ls'; [discriminate|].
  destruct (monthlyUsage i' <=? 0)%float eqn:Lm'; [discriminate|].
  destruct (currentBill i' <=? 0)%float eqn:Lb'; [discriminate|].
  rewrite (leb_zero_token _ _ Hs Es Ls'), (leb_zero_token _ _ Hm Em Lm'),
    (leb_zero_token _ _ Hb Eb Lb'). done.
Qed.

(** On a sound table, the key of an input with finite numbers that fails
    validation holds no entry. *)
Lemma invalid_absent (i : SolarCalculationInputs) (cache : CalculationCache.t) (err : Error) :
  cache_sound cache -> finite_numbers i -> validate i = Some err ->
  cache !! CalculationCache.generateKey i = None.
Proof.
  intros Hs Hf Hv. destruct (cache !! CalculationCache.generateKey i) as [e|] eqn:E; [|done].
  destruct (Hs _ _ E) as (i' & Hk & Hv' & _).
  rewrite (validate_same_key i i' Hf (eq_sym Hk) Hv') in Hv. discriminate.
Qed.

(** Such an input raises its validation error on every call, and the call
    leaves the table as it found it. *)
Lemma invalid_call (t_get t_set t_cleanup : Z) (i : SolarCalculationInputs)
      (cache : CalculationCache.t) (err : Error) :
  cache_sound cache -> finite_numbers i -> validate i = Some err ->
  calculateCommercialSolar t_get t_set t_cleanup i cache = (inl err, cache).
Proof.
  intros Hs Hf Hv. unfold calculateCommercialSolar.
  rewrite (get_absent _ _ _ (invalid_absent i cache err Hs Hf Hv)), Hv. reflexivity.
Qed.

Lemma validate_options (i : SolarCalculationInputs) :
  finite_positive (systemSize i) -> finite_positive (monthlyUsage i) ->
  finite_positive (currentBill i) ->
  rateTier i = "" \/ installationType i = "" \/ panelQuality i = "" \/ batteryStorage i = "" ->
  validate i = Some OptionsNotSelected.
Proof.
  intros [_ Hs] [_ Hm] [_ Hb] H. unfold validate.
  rewrite !ltb_leb_false by assumption. cbn [orb]. unfold falsy_string.
  destruct H as [-> | [-> | [-> | ->]]]; cbn [String.eqb orb];
    rewrite ?orb_true_r; reflexivity.
Qed.

(** C3 (as amended).  For every input whose three numbers are finite and
    positive: when rateTier, installationType, panelQuality and
    batteryStorage are all non-empty, calculateCommercialSolar returns a
    result and raises no error, whether or not the values are recognised; an
    installationType, panelQuality or batteryStorage the engine does not
    name gives the result of Roof-Mount, Standard and no battery, just as an
    unresolved rate tier and location fall back to 0.1059 and 3.3; the
    error "All configuration options must be selected" is raised when one of
    the four options is empty. *)
Theorem unrecognised_options_fall_back (t_get t_set t_cleanup : Z)
        (cache : CalculationCache.t) (i : SolarCalculationInputs) :
  reachable cache ->
  finite_positive (systemSize i) -> finite_positive (monthlyUsage i) ->
  finite_positive (currentBill i) ->
  (rateTier i <> "" -> installationType i <> "" ->
   panelQuality i <> "" -> batteryStorage i <> "" ->
     fst (calculateCommercialSolar t_get t_set t_cleanup i cache) = inr (result i)) /\
  (rateTier i = "" \/ installationType i = "" \/ panelQuality i = "" \/ batteryStorage i = "" ->
     fst (calculateCommercialSolar t_get t_set t_cleanup i cache) = inl OptionsNotSelected) /\
  (Spec.named_installationType (installationType i) = false ->
     result i = result (with_installationType "Roof-Mount" i)) /\
  (Spec.named_panelQuality (panelQuality i) = false ->
     result i = result (with_panelQuality "Standard" i)) /\
  (Spec.named_batteryStorage (batteryStorage i) = false ->
     result i = result (with_batteryStorage "None" i)) /\
  (JS.get BC_COMMERCIAL_RATES (rateTier i) = Undefined ->
     Local.energyRate i = 0.1059%float) /\
  (JS.get BC_SOLAR_IRRADIANCE (toLowerCase (location i)) = Undefined ->
     Local.irradiance i = 3.3%float).
Proof.
  intros Hr Hs Hm Hb. repeat split.
  - intros. by apply call_valid.
  - intros H. rewrite (invalid_call _ _ _ i cache OptionsNotSelected); [done| | |].
    + by apply reachable_sound.
    + by destruct Hs, Hm, Hb.
    + by apply validate_options.
  - apply unnamed_installationType.
  - apply unnamed_panelQuality.
  - apply unnamed_batteryStorage.
  - apply energyRate_default.
  - apply irradiance_default.
Qed.

Lemma unrecognised_options_fall_back_witness :
  reachable ∅ /\ finite_positive 100 /\ finite_positive 5000 /\ finite_positive 600 /\
  fst (calculateCommercialSolar 0 0 0 unnamed_options ∅) = inr (result unnamed_options) /\
  result unnamed_options = result (with_installationType "Roof-Mount" unnamed_options).
Proof.
  assert (forall x, PrimFloat.is_finite x = true -> (0 <? x)%float = true -> finite_positive x)
    as fp by (intros x ? ?; by split).
  pose proof (unrecognised_options_fall_back 0 0 0 ∅ unnamed_options reachable_new
                (fp 100%float eq_refl eq_refl) (fp 5000%float eq_refl eq_refl)
                (fp 600%float eq_refl eq_refl)) as (H1 & _ & H3 & _).
  split; [exact reachable_new|]. repeat (split; [by apply fp|]).
  split.
  - apply H1; discriminate.
  - apply H3. reflexivity.
Defined.

(** An input whose installationType, panelQuality and batteryStorage are
    non-empty and none of the values the engine names gets a result, the one
    of scenario 1, and no validation error. *)
Lemma unnamed_options_return :
  Spec.named_installationType (installationType unnamed_options) = false /\
  Spec.named_panelQuality (panelQuality unnamed_options) = false /\
  Spec.named_batteryStorage (batteryStorage unnamed_options) = false /\
  fst (calculateCommercialSolar 0 0 0 unnamed_options ∅) = inr scenario1_result.
Proof. repeat split; vm_compute; reflexivity. Qed.

(** ** Time to live *)

Lemma set_lookup_own (T T' : Z) (i : SolarCalculationInputs) (r : SolarCalculationResults)
      (cache : CalculationCache.t) :
  (T' - T <= CalculationCache.CACHE_DURATION)%Z ->
  CalculationCache.set T T' i r cache !! CalculationCache.generateKey i
  = Some {| entry_result := r; timestamp := T |}.
Proof.
  intros H. unfold CalculationCache.set.
  destruct (100 <? _)%Z.
  - apply cleanup_lookup. by rewrite lookup_insert_eq.
  - by rewrite lookup_insert_eq.
Qed.

(** C4 (as amended).  An entry stored at time T (by a set whose cleanup pass,
    if any, reads the clock within the time to live) is returned by get, the
    table left as it is, for every lookup at a time <= T + 5 minutes; for
    every lookup at a time > T + 5 minutes get returns absent and removes
    the entry from the table. *)
Theorem entry_lifetime (T T' now : Z) (i : SolarCalculationInputs)
        (r : SolarCalculationResults) (cache : CalculationCache.t) :
  (T' - T <= CalculationCache.CACHE_DURATION)%Z ->
  ((now <= T + CalculationCache.CACHE_DURATION)%Z ->
     CalculationCache.get now i (CalculationCache.set T T' i r cache)
     = (Some r, CalculationCache.set T T' i r cache)) /\
  ((T + CalculationCache.CACHE_DURATION < now)%Z ->
     CalculationCache.get now i (CalculationCache.set T T' i r cache)
     = (None, delete (CalculationCache.generateKey i) (CalculationCache.set T T' i r cache))).
Proof.
  intros HT. pose proof (set_lookup_own T T' i r cache HT) as Hl. split; intros H.
  - rewrite (get_hit now i _ _ Hl); [done | cbn; lia].
  - rewrite (get_stale now i _ _ Hl); [done | cbn; lia].
Qed.

Lemma entry_lifetime_witness :
  (0 - 0 <= CalculationCache.CACHE_DURATION)%Z /\
  (299999 <= 0 + CalculationCache.CACHE_DURATION)%Z /\
  CalculationCache.get 299999 scenario1 (CalculationCache.set 0 0 scenario1 scenario1_result ∅)
  = (Some scenario1_result, CalculationCache.set 0 0 scenario1 scenario1_result ∅).
Proof.
  assert (0 - 0 <= CalculationCache.CACHE_DURATION)%Z as H0 by (vm_compute; discriminate).
  assert (299999 <= 0 + CalculationCache.CACHE_DURATION)%Z as H1 by (vm_compute; discriminate).
  split; [exact H0|]. split; [exact H1|].
  exact (proj1 (entry_lifetime 0 0 299999 scenario1 scenario1_result ∅ H0) H1).
Defined.

(** A lookup exactly five minutes after the entry was stored is a hit, and
    the entry stays in the table. *)
Lemma lookup_at_five_minutes :
  (300000 >= 0 + 5 * 60 * 1000)%Z /\
  fst (CalculationCache.get 300000 scenario1
         (CalculationCache.set 0 0 scenario1 scenario1_result ∅))
  = Some scenario1_result /\
  snd (CalculationCache.get 300000 scenario1
         (CalculationCache.set 0 0 scenario1 scenario1_result ∅))
    !! CalculationCache.generateKey scenario1
  = Some {| entry_result := scenario1_result; timestamp := 0 |}.
Proof.
  split; [lia|].
  assert (0 - 0 <= CalculationCache.CACHE_DURATION)%Z as H0 by (vm_compute; discriminate).
  rewrite (get_hit 300000 scenario1 _ _ (set_lookup_own 0 0 scenario1 scenario1_result ∅ H0)).
  - split; [reflexivity | by apply set_lookup_own].
  - vm_compute. discriminate.
Qed.

(** ** Housekeeping *)

Lemma set_lookup_other (now now' : Z) (i : SolarCalculationInputs)
      (r : SolarCalculationResults) (cache : CalculationCache.t)
      (k : CalculationCache.key) (e : CacheEntry) :
  k <> CalculationCache.generateKey i -> cache !! k = Some e ->
  (now' - timestamp e <= CalculationCache.CACHE_DURATION)%Z ->
  CalculationCache.set now now' i r cache !! k = Some e.
Proof.
  intros Hk He Hu. unfold CalculationCache.set.
  destruct (100 <? _)%Z.
  - apply cleanup_lookup. by rewrite lookup_insert_ne.
  - by rewrite lookup_insert_ne.
Qed.

Lemma get_keeps_live (now : Z) (i : SolarCalculationInputs) (cache : CalculationCache.t)
      (k : CalculationCache.key) (e : CacheEntry) :
  cache !! k = Some e -> (now - timestamp e <= CalculationCache.CACHE_DURATION)%Z ->
  snd (CalculationCache.get now i cache) !! k = Some e.
Proof.
  intros He Hu. unfold CalculationCache.get.
  destruct (cache !! CalculationCache.generateKey i) as [e'|] eqn:E; [|done].
  destruct (CalculationCache.CACHE_DURATION <? now - timestamp e')%Z eqn:L; [|done].
  cbn [snd]. rewrite lookup_delete_ne; [done|].
  intros <-. rewrite E in He. injection He as ->.
  apply Z.ltb_lt in L. lia.
Qed.

Lemma call_keeps_live (t_get t_set t_cleanup : Z) (i : SolarCalculationInputs)
      (cache : CalculationCache.t) (k : CalculationCache.key) (e : CacheEntry) :
  k <> CalculationCache.generateKey i -> cache !! k = Some e ->
  (t_cleanup - timestamp e <= CalculationCache.CACHE_DURATION)%Z ->
  snd (calculateCommercialSolar t_get t_set t_cleanup i cache) !! k = Some e.
Proof.
  intros Hk He Hu. unfold calculateCommercialSolar.
  assert (snd (CalculationCache.get t_get i cache) !! k = Some e) as Hg.
  { destruct (CalculationCache.get t_get i cache) as [[r|] cache'] eqn:E; cbn [snd].
    - by apply get_Some in E as [-> _].
    - apply get_None in E as [-> | ->]; [done | by rewrite lookup_delete_ne]. }
  destruct (CalculationCache.get t_get i cache) as [[r|] cache']; cbn [snd] in *; [done|].
  destruct (validate i); cbn [snd]; [done|].
  by apply set_lookup_other.
Qed.

(** C7.  set runs the cleanup pass exactly when the table holds more than
    100 entries after the insertion; the pass removes every entry older than
    the time to live and keeps every other entry; neither get nor set (with
    or without its cleanup pass) removes an entry that has not expired, nor
    does a call of calculateCommercialSolar, and after a pass every entry
    left is unexpired. *)
Theorem cleanup_on_overflow_expired_only (now now' : Z) (i : SolarCalculationInputs)
        (r : SolarCalculationResults) (cache : CalculationCache.t) :
  ((size (<[CalculationCache.generateKey i := {| entry_result := r; timestamp := now |}]> cache)
    <= 100)%nat ->
     CalculationCache.set now now' i r cache
     = <[CalculationCache.generateKey i := {| entry_result := r; timestamp := now |}]> cache) /\
  ((100 < size (<[CalculationCache.generateKey i := {| entry_result := r; timestamp := now |}]> cache))%nat ->
     CalculationCache.set now now' i r cache
     = CalculationCache.cleanup now'
         (<[CalculationCache.generateKey i := {| entry_result := r; timestamp := now |}]> cache)) /\
  (forall (k : CalculationCache.key) (e : CacheEntry),
     CalculationCache.cleanup now' cache !! k = Some e <->
     cache !! k = Some e /\ (now' - timestamp e <= CalculationCache.CACHE_DURATION)%Z) /\
  (forall (k : CalculationCache.key) (e : CacheEntry),
     k <> CalculationCache.generateKey i -> cache !! k = Some e ->
     (now' - timestamp e <= CalculationCache.CACHE_DURATION)%Z ->
     CalculationCache.set now now' i r cache !! k = Some e) /\
  (forall (k : CalculationCache.key) (e : CacheEntry),
     cache !! k = Some e -> (now - timestamp e <= CalculationCache.CACHE_DURATION)%Z ->
     snd (CalculationCache.get now i cache) !! k = Some e) /\
  (forall (k : CalculationCache.key) (e : CacheEntry),
     (100 < size (<[CalculationCache.generateKey i := {| entry_result := r; timestamp := now |}]> cache))%nat ->
     CalculationCache.set now now' i r cache !! k = Some e ->
     (now' - timestamp e <= CalculationCache.CACHE_DURATION)%Z) /\
  (forall (t_get : Z) (k : CalculationCache.key) (e : CacheEntry),
     k <> CalculationCache.generateKey i -> cache !! k = Some e ->
     (now' - timestamp e <= CalculationCache.CACHE_DURATION)%Z ->
     snd (calculateCommercialSolar t_get now now' i cache) !! k = Some e).
Proof.
  split; [|split; [|split; [|split; [|split; [|split]]]]].
  - intros H. unfold CalculationCache.set.
    destruct (Z.ltb_spec 100 (Z.of_nat (size (<[CalculationCache.generateKey i :=
                {| entry_result := r; timestamp := now |}]> cache)))); [lia | done].
  - intros H. unfold CalculationCache.set.
    destruct (Z.ltb_spec 100 (Z.of_nat (size (<[CalculationCache.generateKey i :=
                {| entry_result := r; timestamp := now |}]> cache)))); [done | lia].
  - intros k e. apply cleanup_lookup.
  - apply set_lookup_other.
  - apply get_keeps_live.
  - intros k e H. unfold CalculationCache.set.
    destruct (Z.ltb_spec 100 (Z.of_nat (size (<[CalculationCache.generateKey i :=
                {| entry_result := r; timestamp := now |}]> cache)))); [|lia].
    by intros [_ ?]%cleanup_lookup.
  - intros t_get k e. apply call_keeps_live.
Qed.

(** ** Multipliers *)

(** C5 (as amended).  For every input, the system efficiency the engine uses
    is 0.85 multiplied first by the panel-quality factor and then by the
    installation-type factor, the cost per kW is 1750 multiplied first by
    the installation-type factor and then by the panel-quality factor, both
    in double-precision arithmetic and in that order; for systemSize 500
    with Tracker System, Premium Tier 1 and the 200kWh+ battery the
    efficiency is 0.85 * 1.15 * 1.25 and totalCost is
    500 * 1750 * 1.50 * 1.25 + 250000. *)
Theorem multipliers_in_source_order (i : SolarCalculationInputs) :
  Local.systemEfficiency i
  = (0.85 * Spec.panelEfficiencyFactor (panelQuality i)
          * Spec.installationEfficiencyFactor (installationType i))%float /\
  Local.baseCostPerKw i
  = (1750 * Spec.installationCostFactor (installationType i)
          * Spec.panelCostFactor (panelQuality i))%float /\
  Local.annualProduction i
  = (systemSize i * (Local.irradiance i * 365)
     * (0.85 * Spec.panelEfficiencyFactor (panelQuality i)
             * Spec.installationEfficiencyFactor (installationType i)))%float /\
  (systemSize i = 500%float -> installationType i = "Tracker System" ->
   panelQuality i = "Premium Tier 1" -> batteryStorage i = "200kWh+ Custom Solution" ->
     Local.systemEfficiency i = (0.85 * 1.15 * 1.25)%float /\
     Local.totalCost i = (500 * 1750 * 1.50 * 1.25 + 250000)%float /\
     Results.totalCost (result i) = 1890625%float).
Proof.
  assert (Local.systemEfficiency i
          = (0.85 * Spec.panelEfficiencyFactor (panelQuality i)
                  * Spec.installationEfficiencyFactor (installationType i))%float) as Heff.
  { unfold Local.systemEfficiency, Spec.panelEfficiencyFactor,
      Spec.installationEfficiencyFactor.
    destruct (String.eqb (panelQuality i) "High Efficiency");
      [|destruct (String.eqb (panelQuality i) "Premium Tier 1")];
      (destruct (String.eqb (installationType i) "Ground-Mount");
       [|destruct (String.eqb (installationType i) "Tracker System")]);
      vm_compute; reflexivity. }
  split; [exact Heff|]. split; [|split].
  - unfold Local.baseCostPerKw, Spec.panelCostFactor, Spec.installationCostFactor.
    destruct (String.eqb (installationType i) "Ground-Mount");
      [|destruct (String.eqb (installationType i) "Carport/Canopy");
        [|destruct (String.eqb (installationType i) "Tracker System")]];
      (destruct (String.eqb (panelQuality i) "High Efficiency");
       [|destruct (String.eqb (panelQuality i) "Premium Tier 1")]);
      vm_compute; reflexivity.
  - unfold Local.annualProduction, Local.peakSunHours. by rewrite Heff.
  - intros Hs Hi Hp Hb. cbn [result Results.totalCost].
    unfold Local.systemEfficiency, Local.totalCost, Local.baseCostPerKw.
    rewrite Hs, Hi, Hp, Hb. repeat split; vm_compute; reflexivity.
Qed.

(** Applied in the other order the two efficiency multipliers give another
    double, and another result: for Premium Tier 1 on a 250 kW Ground-Mount
    in Vancouver the efficiency is 1.026375 in the engine and
    1.0263749999999998 with the installation factor first; the engine returns
    an annualProduction of 299702 (from 299701.5), the other order 299701. *)
Lemma efficiency_order_matters :
  Local.systemEfficiency premium_ground_mount = 1.026375%float /\
  (0.85 * Spec.installationEfficiencyFactor (installationType premium_ground_mount)
        * Spec.panelEfficiencyFactor (panelQuality premium_ground_mount))%float
  = 1.0263749999999998%float /\
  Local.systemEfficiency premium_ground_mount
  <> (0.85 * Spec.installationEfficiencyFactor (installationType premium_ground_mount)
           * Spec.panelEfficiencyFactor (panelQuality premium_ground_mount))%float /\
  fst (calculateCommercialSolar 0 0 0 premium_ground_mount ∅)
  = inr (result premium_ground_mount) /\
  Results.annualProduction (result premium_ground_mount) = 299702%float /\
  Math_round (systemSize premium_ground_mount * Local.peakSunHours premium_ground_mount
              * (0.85 * Spec.installationEfficiencyFactor (installationType premium_ground_mount)
                      * Spec.panelEfficiencyFactor (panelQuality premium_ground_mount)))%float
  = 299701%float.
Proof.
  split; [vm_compute; reflexivity|]. split; [vm_compute; reflexivity|].
  split; [vm_compute; float_discriminate|].
  repeat split; vm_compute; reflexivity.
Qed.

(** ** Transparency and determinism *)

Lemma after_scenario1_reachable : reachable after_scenario1.
Proof. apply reachable_call, reachable_new. Qed.

(** X15.  Cache transparency for finite numbers: for every input whose three
    numbers are finite and positive and whose four options are selected, on
    every reachable state of the cache, what a lookup hands out, or the
    direct computation when it hands out nothing, is the result of the
    direct computation; so is what calculateCommercialSolar returns with the
    cache in front.  (For a systemSize of +Infinity this fails, as the
    last section shows.) *)
Theorem cache_transparent (now t_get t_set t_cleanup : Z) (cache : CalculationCache.t)
        (i : SolarCalculationInputs) :
  reachable cache -> valid_input i ->
  from_option inr (compute i) (fst (CalculationCache.get now i cache)) = compute i /\
  fst (calculateCommercialSolar t_get t_set t_cleanup i cache) = compute i.
Proof.
  intros Hr Hv. unfold compute. rewrite (valid_input_validate i Hv). split.
  - destruct (CalculationCache.get now i cache) as [[r|] cache'] eqn:E; cbn; [|done].
    f_equal. destruct Hv as ([Hf Hp] & _).
    eapply sound_hit; eauto using reachable_sound.
  - by apply call_valid.
Qed.

Lemma cache_transparent_witness :
  reachable after_scenario1 /\ valid_input scenario1 /\
  fst (CalculationCache.get 1000 scenario1 after_scenario1) = Some scenario1_result /\
  from_option inr (compute scenario1) (fst (CalculationCache.get 1000 scenario1 after_scenario1))
  = compute scenario1.
Proof.
  split; [exact after_scenario1_reachable|]. split; [exact scenario1_valid|].
  split; [vm_compute; reflexivity|].
  exact (proj1 (cache_transparent 1000 0 0 0 after_scenario1 scenario1
                  after_scenario1_reachable scenario1_valid)).
Defined.

(** Determinism for finite numbers: two calls whose inputs have finite
    positive numbers and selected options and agree on all eight fields
    return the same result, whatever the state of the cache at either call
    and whatever the clock reads.  (For a systemSize of +Infinity this
    fails, as the last section shows.) *)
Theorem equal_inputs_equal_results (t_get t_set t_cleanup t_get' t_set' t_cleanup' : Z)
        (cache cache' : CalculationCache.t) (i i' : SolarCalculationInputs) :
  reachable cache -> reachable cache' -> valid_input i -> valid_input i' ->
  systemSize i = systemSize i' -> monthlyUsage i = monthlyUsage i' ->
  currentBill i = currentBill i' -> rateTier i = rateTier i' ->
  installationType i = installationType i' -> panelQuality i = panelQuality i' ->
  batteryStorage i = batteryStorage i' -> location i = location i' ->
  fst (calculateCommercialSolar t_get t_set t_cleanup i cache)
  = fst (calculateCommercialSolar t_get' t_set' t_cleanup' i' cache').
Proof.
  intros Hr Hr' Hv Hv' Hs _ _ Ht Hi Hp Hb Hl.
  rewrite !call_valid by assumption. f_equal. by apply result_ext.
Qed.

Lemma equal_inputs_equal_results_witness :
  fst (CalculationCache.get 7 scenario1 ∅) = None /\
  fst (CalculationCache.get 7 scenario1 after_scenario1) = Some scenario1_result /\
  fst (calculateCommercialSolar 7 7 7 scenario1 ∅)
  = fst (calculateCommercialSolar 7 7 7 scenario1 after_scenario1).
Proof.
  split; [vm_compute; reflexivity|]. split; [vm_compute; reflexivity|].
  exact (equal_inputs_equal_results 7 7 7 7 7 7 ∅ after_scenario1 scenario1 scenario1
           reachable_new after_scenario1_reachable scenario1_valid scenario1_valid
           eq_refl eq_refl eq_refl eq_refl eq_refl eq_refl eq_refl eq_refl).
Defined.

(** *** Positive numbers, +Infinity included

    The same two properties for inputs whose numbers are merely [> 0], on
    the states of the cache reached when every earlier call had such an
    input. *)

Lemma positive_input_validate (i : SolarCalculationInputs) :
  positive_input i -> validate i = None.
Proof.
  intros (Hs & Hm & Hb & Hr & Hi & Hp & Hbat). unfold validate.
  rewrite !ltb_leb_false by assumption. cbn [orb].
  unfold falsy_string.
  apply String.eqb_neq in Hr, Hi, Hp, Hbat. by rewrite Hr, Hi, Hp, Hbat.
Qed.

Lemma call_positive (t_get t_set t_cleanup : Z) (i : SolarCalculationInputs)
      (cache : CalculationCache.t) :
  reachable_positive cache -> positive_input i ->
  fst (calculateCommercialSolar t_get t_set t_cleanup i cache) = compute i.
Proof.
  intros Hr Hv. unfold compute, calculateCommercialSolar.
  rewrite (positive_input_validate i Hv).
  destruct (CalculationCache.get t_get i cache) as [[r|] cache'] eqn:E; [|done].
  cbn [fst]. f_equal.
  apply get_Some in E as (_ & e & He & <- & _).
  destruct (reachable_positive_from cache Hr _ _ He) as (i' & Hk & Hv' & ->).
  unfold CalculationCache.generateKey in Hk.
  inversion Hk as [[Hs Hm Hb Hrt Hi Hq Hbat Hl]].
  apply result_ext; try done.
  apply number_token_inj_positive; [by destruct Hv' | by destruct Hv | done].
Qed.

(** ** Arithmetic without guards *)

(** A call returns a result or a validation error according to [validate]
    alone when the lookup misses, and a result when it hits. *)
Lemma call_validated (t_get t_set t_cleanup : Z) (i : SolarCalculationInputs)
      (cache : CalculationCache.t) :
  validate i = None ->
  exists r, fst (calculateCommercialSolar t_get t_set t_cleanup i cache) = inr r.
Proof.
  intros Hv. unfold calculateCommercialSolar.
  destruct (CalculationCache.get t_get i cache) as [[r|] cache'].
  - by exists r.
  - rewrite Hv. by eexists.
Qed.

(** C8.  For every input that passes validation, netCost is
    totalCost - cleanBcRebates - federalIncentives with no clamping,
    federalIncentives is totalCost * 0.30 with no cap, and paybackPeriod is
    the plain quotient netCost / annualSavings; the computation returns a
    result, never an error, and so does every call: the returned fields are
    the roundings of these values, a NaN or infinite quotient included. *)
Theorem net_cost_and_payback_unguarded (t_get t_set t_cleanup : Z)
        (cache : CalculationCache.t) (i : SolarCalculationInputs) :
  validate i = None ->
  Local.netCost i
  = (Local.totalCost i - Local.cleanBcRebates i - Local.federalIncentives i)%float /\
  Local.federalIncentives i = (Local.totalCost i * 0.30)%float /\
  Local.paybackPeriod i = (Local.netCost i / Local.annualSavings i)%float /\
  compute i = inr (result i) /\
  Results.netCost (result i)
  = Math_round (Local.totalCost i - Local.cleanBcRebates i - Local.federalIncentives i)%float /\
  Results.federalIncentives (result i) = Math_round (Local.totalCost i * 0.30)%float /\
  Results.paybackPeriod (result i)
  = (Math_round (Local.netCost i / Local.annualSavings i * 10) / 10)%float /\
  (exists r, fst (calculateCommercialSolar t_get t_set t_cleanup i cache) = inr r) /\
  (cache !! CalculationCache.generateKey i = None ->
   fst (calculateCommercialSolar t_get t_set t_cleanup i cache) = inr (result i)).
Proof.
  intros Hv. repeat split; try reflexivity.
  - unfold compute. by rewrite Hv.
  - by apply call_validated.
  - intros Hk. unfold calculateCommercialSolar.
    rewrite (get_absent _ _ _ Hk), Hv. reflexivity.
Qed.

Lemma net_cost_and_payback_unguarded_witness :
  validate scenario1 = None /\
  Local.netCost scenario1 = 72500%float /\
  Local.paybackPeriod scenario1 = (72500 / Local.annualSavings scenario1)%float /\
  fst (calculateCommercialSolar 0 0 0 scenario1 ∅) = inr (result scenario1).
Proof.
  split; [vm_compute; reflexivity|]. split; [vm_compute; reflexivity|].
  split; [vm_compute; reflexivity|].
  refine (proj2 (proj2 (proj2 (proj2 (proj2 (proj2 (proj2 (proj2
            (net_cost_and_payback_unguarded 0 0 0 ∅ scenario1 _)))))))) _).
  - vm_compute. reflexivity.
  - apply lookup_empty.
Defined.

(** A degenerate quotient is returned, not trapped: an infinite system size
    passes validation, its savings are infinite, its net cost is
    Infinity - Infinity, and the call returns NaN as paybackPeriod. *)
Example infinite_size_payback :
  validate infinite_size = None /\
  Local.annualSavings infinite_size = PrimFloat.infinity /\
  PrimFloat.is_nan (Local.netCost infinite_size) = true /\
  fst (calculateCommercialSolar 0 0 0 infinite_size ∅) = inr (result infinite_size) /\
  PrimFloat.is_nan (Results.paybackPeriod (result infinite_size)) = true.
Proof. repeat split; vm_compute; reflexivity. Qed.

(** ** Validation errors and the cache *)

(** A call that raises a validation error stores nothing: the table it
    leaves is the one its lookup left. *)
Lemma error_stores_nothing (t_get t_set t_cleanup : Z) (i : SolarCalculationInputs)
      (cache : CalculationCache.t) (err : Error) :
  fst (calculateCommercialSolar t_get t_set t_cleanup i cache) = inl err ->
  validate i = Some err /\
  fst (CalculationCache.get t_get i cache) = None /\
  snd (calculateCommercialSolar t_get t_set t_cleanup i cache)
  = snd (CalculationCache.get t_get i cache).
Proof.
  unfold calculateCommercialSolar.
  destruct (CalculationCache.get t_get i cache) as [[r|] cache']; [discriminate|].
  destruct (validate i) as [e|]; [|discriminate].
  cbn. by intros [= ->].
Qed.

(** C10, at the input where the code departs from it.  On an empty cache a
    systemSize of -Infinity raises the validation error.  JSON.stringify
    spells -Infinity and +Infinity alike, as null, so the two inputs share
    their key; +Infinity passes validation and its result is stored; a call
    with -Infinity one millisecond later is answered with that stored result
    instead of the error. *)
Theorem minus_infinity_answered_from_cache :
  validate minus_infinite_size = Some MustBePositive /\
  fst (calculateCommercialSolar 0 0 0 minus_infinite_size ∅) = inl MustBePositive /\
  validate infinite_size = None /\
  CalculationCache.generateKey minus_infinite_size
  = CalculationCache.generateKey infinite_size /\
  fst (calculateCommercialSolar 1 1 1 minus_infinite_size
         (snd (calculateCommercialSolar 0 0 0 infinite_size ∅)))
  = inr (result infinite_size).
Proof. repeat split; vm_compute; reflexivity. Qed.


(** * Further properties of the two modules *)

(** ** Calls in sequence *)



(** X2.  Expiry: when the entry under the key of the input is older than
    five minutes, a call does not return it, whatever it holds: an input
    that passes validation gets the freshly computed result, stored under
    the key with the time of the insertion; an input that fails validation
    gets its error, and the stale entry is gone. *)
Theorem stale_entry_recomputed (t_get t_set t_cleanup : Z)
        (i : SolarCalculationInputs) (cache : CalculationCache.t) (e : CacheEntry) :
  cache !! CalculationCache.generateKey i = Some e ->
  (CalculationCache.CACHE_DURATION < t_get - timestamp e)%Z ->
  (validate i = None ->
   (t_cleanup - t_set <= CalculationCache.CACHE_DURATION)%Z ->
     fst (calculateCommercialSolar t_get t_set t_cleanup i cache) = inr (result i) /\
     snd (calculateCommercialSolar t_get t_set t_cleanup i cache)
       !! CalculationCache.generateKey i
     = Some {| entry_result := result i; timestamp := t_set |}) /\
  (forall err, validate i = Some err ->
     calculateCommercialSolar t_get t_set t_cleanup i cache
     = (inl err, delete (CalculationCache.generateKey i) cache)).
Proof.
  intros He Hstale. unfold calculateCommercialSolar.
  rewrite (get_stale t_get i cache e He Hstale). split.
  - intros Hv Hc. rewrite Hv. cbn [fst snd]. split; [reflexivity|].
    by apply set_lookup_own.
  - intros err Hv. by rewrite Hv.
Qed.

Lemma stale_entry_recomputed_witness :
  after_scenario1 !! CalculationCache.generateKey scenario1
  = Some {| entry_result := scenario1_result; timestamp := 0 |} /\
  (CalculationCache.CACHE_DURATION < 300001 - 0)%Z /\
  fst (calculateCommercialSolar 300001 300002 300002 scenario1 after_scenario1)
  = inr (result scenario1) /\
  snd (calculateCommercialSolar 300001 300002 300002 scenario1 after_scenario1)
    !! CalculationCache.generateKey scenario1
  = Some {| entry_result := result scenario1; timestamp := 300002 |}.
Proof.
  assert (after_scenario1 !! CalculationCache.generateKey scenario1
          = Some {| entry_result := scenario1_result; timestamp := 0 |}) as H1
    by (vm_compute; reflexivity).
  assert (CalculationCache.CACHE_DURATION < 300001 - 0)%Z as H2 by (vm_compute; reflexivity).
  split; [exact H1|]. split; [exact H2|].
  refine (proj1 (stale_entry_recomputed 300001 300002 300002 scenario1 after_scenario1
                   _ H1 H2) _ _).
  - vm_compute. reflexivity.
  - vm_compute. discriminate.
Defined.

(** ** The size of the table *)

Lemma cleanup_size (now : Z) (cache : CalculationCache.t) :
  size (CalculationCache.cleanup now cache) <= size cache.
Proof. apply map_subseteq_size, map_filter_subseteq. Qed.

Lemma set_size (now now' : Z) (i : SolarCalculationInputs) (r : SolarCalculationResults)
      (cache : CalculationCache.t) :
  size (CalculationCache.set now now' i r cache) <= S (size cache).
Proof.
  unfold CalculationCache.set.
  assert (size (<[CalculationCache.generateKey i :=
                   {| entry_result := r; timestamp := now |}]> cache) <= S (size cache)) as H.
  { rewrite map_size_insert. destruct (cache !! CalculationCache.generateKey i); cbn; lia. }
  destruct (100 <? _)%Z; [|exact H].
  etransitivity; [apply cleanup_size | exact H].
Qed.

Lemma get_size (now : Z) (i : SolarCalculationInputs) (cache : CalculationCache.t) :
  size (snd (CalculationCache.get now i cache)) <= size cache.
Proof.
  unfold CalculationCache.get.
  destruct (cache !! CalculationCache.generateKey i) as [e|] eqn:E; [|done].
  destruct (CalculationCache.CACHE_DURATION <? now - timestamp e)%Z; cbn [snd]; [|done].
  rewrite map_size_delete, E. cbn. lia.
Qed.

(** X3.  A call adds at most one entry to the table; a call that raises a
    validation error adds none, and a call answered from the cache leaves
    the table as it is. *)
Theorem call_adds_at_most_one_entry (t_get t_set t_cleanup : Z)
        (i : SolarCalculationInputs) (cache : CalculationCache.t) :
  size (snd (calculateCommercialSolar t_get t_set t_cleanup i cache)) <= S (size cache) /\
  (forall err, fst (calculateCommercialSolar t_get t_set t_cleanup i cache) = inl err ->
     size (snd (calculateCommercialSolar t_get t_set t_cleanup i cache)) <= size cache) /\
  (forall r, fst (CalculationCache.get t_get i cache) = Some r ->
     calculateCommercialSolar t_get t_set t_cleanup i cache = (inr r, cache)).
Proof.
  pose proof (get_size t_get i cache) as Hg.
  unfold calculateCommercialSolar.
  destruct (CalculationCache.get t_get i cache) as [[r|] cache'] eqn:E; cbn [fst snd] in *.
  - apply get_Some in E as [-> _]. repeat split.
    + lia.
    + intros err [=].
    + by intros r' [= ->].
  - destruct (validate i) as [err|]; cbn [fst snd]; repeat split.
    + lia.
    + intros _ _. exact Hg.
    + intros r [=].
    + pose proof (set_size t_set t_cleanup i (result i) cache'). lia.
    + intros err [=].
    + intros r [=].
Qed.

(** ** What decides the result *)

(** X4.  monthlyUsage and currentBill are checked for positivity and then
    never read: two calls whose valid inputs agree on systemSize, rateTier,
    installationType, panelQuality, batteryStorage and location return the
    same result, whatever the usage and the bill, on every state of the
    cache. *)
Theorem usage_and_bill_do_not_matter (t_get t_set t_cleanup t_get' t_set' t_cleanup' : Z)
        (cache cache' : CalculationCache.t) (i i' : SolarCalculationInputs) :
  reachable cache -> reachable cache' -> valid_input i -> valid_input i' ->
  systemSize i = systemSize i' -> rateTier i = rateTier i' ->
  installationType i = installationType i' -> panelQuality i = panelQuality i' ->
  batteryStorage i = batteryStorage i' -> location i = location i' ->
  fst (calculateCommercialSolar t_get t_set t_cleanup i cache)
  = fst (calculateCommercialSolar t_get' t_set' t_cleanup' i' cache').
Proof.
  intros Hr Hr' Hv Hv' Hs Ht Hi Hp Hb Hl.
  rewrite (call_valid _ _ _ i cache Hr Hv), (call_valid _ _ _ i' cache' Hr' Hv').
  f_equal. by apply result_ext.
Qed.

Lemma scenario1_other_bill_valid : valid_input scenario1_other_bill.
Proof. repeat split; try reflexivity; discriminate. Qed.

Lemma usage_and_bill_do_not_matter_witness :
  CalculationCache.generateKey scenario1 <> CalculationCache.generateKey scenario1_other_bill /\
  fst (calculateCommercialSolar 0 0 0 scenario1 ∅)
  = fst (calculateCommercialSolar 5 5 5 scenario1_other_bill after_scenario1).
Proof.
  split; [vm_compute; discriminate|].
  exact (usage_and_bill_do_not_matter 0 0 0 5 5 5 ∅ after_scenario1
           scenario1 scenario1_other_bill reachable_new after_scenario1_reachable
           scenario1_valid scenario1_other_bill_valid
           eq_refl eq_refl eq_refl eq_refl eq_refl eq_refl).
Defined.

(** X5.  On every reachable state of the cache, an input whose three numbers
    are finite and that fails validation raises its validation error, and
    the call leaves the table exactly as it found it: such an input is never
    answered from the cache and never stored. *)
Theorem invalid_finite_input_always_raises (t_get t_set t_cleanup : Z)
        (i : SolarCalculationInputs) (cache : CalculationCache.t) (err : Error) :
  reachable cache -> finite_numbers i -> validate i = Some err ->
  calculateCommercialSolar t_get t_set t_cleanup i cache = (inl err, cache) /\
  cache !! CalculationCache.generateKey i = None.
Proof.
  intros Hr Hf Hv. pose proof (reachable_sound cache Hr) as Hs. split.
  - by apply invalid_call.
  - by eapply invalid_absent.
Qed.

Lemma invalid_finite_input_always_raises_witness :
  reachable after_scenario1 /\ finite_numbers negative_size /\
  validate negative_size = Some MustBePositive /\
  calculateCommercialSolar 9 9 9 negative_size after_scenario1
  = (inl MustBePositive, after_scenario1).
Proof.
  assert (finite_numbers negative_size) as Hf by (repeat split; vm_compute; reflexivity).
  assert (validate negative_size = Some MustBePositive) as Hv by (vm_compute; reflexivity).
  split; [exact after_scenario1_reachable|]. split; [exact Hf|]. split; [exact Hv|].
  exact (proj1 (invalid_finite_input_always_raises 9 9 9 negative_size after_scenario1
                  MustBePositive after_scenario1_reachable Hf Hv)).
Defined.

(** X6.  The cache key of a valid input is the key of no other input: an
    input with the same key has the same eight fields. *)
Theorem valid_key_is_unique (i i' : SolarCalculationInputs) :
  valid_input i ->
  CalculationCache.generateKey i = CalculationCache.generateKey i' ->
  i = i'.
Proof.
  intros ([Hfs Hps] & [Hfm Hpm] & [Hfb Hpb] & _) E.
  unfold CalculationCache.generateKey in E.
  inversion E as [[Es Em Eb Er Ei Ep Ebat El]].
  apply number_token_inj in Es, Em, Eb; try assumption.
  destruct i, i'; cbn in *. congruence.
Qed.

Lemma valid_key_is_unique_witness :
  valid_input scenario1 /\
  with_installationType "Roof-Mount" scenario1 = scenario1.
Proof.
  split; [exact scenario1_valid|]. symmetry.
  exact (valid_key_is_unique scenario1 (with_installationType "Roof-Mount" scenario1)
           scenario1_valid eq_refl).
Defined.

(** X7.  After clear() the table remembers nothing: the next call with an
    input that passes validation computes its result and leaves a table that
    holds this one entry only; with an input that fails validation it raises
    the error and leaves the table empty. *)
Theorem call_after_clear (t_get t_set t_cleanup : Z)
        (i : SolarCalculationInputs) (cache : CalculationCache.t) :
  (validate i = None ->
     calculateCommercialSolar t_get t_set t_cleanup i (CalculationCache.clear cache)
     = (inr (result i),
        {[ CalculationCache.generateKey i
           := {| entry_result := result i; timestamp := t_set |} ]})) /\
  (forall err, validate i = Some err ->
     calculateCommercialSolar t_get t_set t_cleanup i (CalculationCache.clear cache)
     = (inl err, ∅)).
Proof.
  unfold calculateCommercialSolar, CalculationCache.clear.
  rewrite (get_absent t_get i ∅ (lookup_empty _)). split.
  - intros ->. f_equal. unfold CalculationCache.set.
    rewrite insert_empty, map_size_singleton. reflexivity.
  - by intros err ->.
Qed.

(** ** NaN in the arithmetic *)

Section NaN.
Local Open Scope float_scope.

Lemma is_nan_eq x : PrimFloat.is_nan x = true -> x = PrimFloat.nan.
Proof.
  unfold PrimFloat.is_nan. rewrite FloatAxioms.eqb_spec. intros H.
  apply Prim2SF_inj. change (Prim2SF PrimFloat.nan) with S754_nan.
  destruct (Prim2SF x) as [s|s| |s m e]; try reflexivity; exfalso; revert H.
  - by destruct s.
  - by destruct s.
  - unfold SFeqb. cbn [SFcompare]. rewrite Z.compare_refl.
    change (PosDef.Pos.compare_cont Eq m m) with (Pos.compare m m).
    rewrite Pos.compare_refl. by destruct s.
Qed.

Lemma mul_nan_l y : PrimFloat.nan * y = PrimFloat.nan.
Proof.
  apply Prim2SF_inj. rewrite FloatAxioms.mul_spec.
  change (Prim2SF PrimFloat.nan) with S754_nan. reflexivity.
Qed.

Lemma mul_nan_r x : x * PrimFloat.nan = PrimFloat.nan.
Proof.
  apply Prim2SF_inj. rewrite FloatAxioms.mul_spec.
  change (Prim2SF PrimFloat.nan) with S754_nan. by destruct (Prim2SF x).
Qed.

Lemma add_nan_l y : PrimFloat.nan + y = PrimFloat.nan.
Proof.
  apply Prim2SF_inj. rewrite FloatAxioms.add_spec.
  change (Prim2SF PrimFloat.nan) with S754_nan. reflexivity.
Qed.

Lemma sub_nan_l y : PrimFloat.nan - y = PrimFloat.nan.
Proof.
  apply Prim2SF_inj. rewrite FloatAxioms.sub_spec.
  change (Prim2SF PrimFloat.nan) with S754_nan. reflexivity.
Qed.

Lemma sub_nan_r x : x - PrimFloat.nan = PrimFloat.nan.
Proof.
  apply Prim2SF_inj. rewrite FloatAxioms.sub_spec.
  change (Prim2SF PrimFloat.nan) with S754_nan. by destruct (Prim2SF x).
Qed.

Lemma div_nan_l y : PrimFloat.nan / y = PrimFloat.nan.
Proof.
  apply Prim2SF_inj. rewrite FloatAxioms.div_spec.
  change (Prim2SF PrimFloat.nan) with S754_nan. reflexivity.
Qed.

Lemma div_nan_r x : x / PrimFloat.nan = PrimFloat.nan.
Proof.
  apply Prim2SF_inj. rewrite FloatAxioms.div_spec.
  change (Prim2SF PrimFloat.nan) with S754_nan. by destruct (Prim2SF x).
Qed.
End NaN.

(** ** The two table lookups *)

(** X8.  The location is matched without regard to letter case: two valid
    inputs that agree on systemSize and the four options and whose locations
    have the same lower-case form get the same result from every call,
    although they are cached under different keys. *)
Theorem location_case_insensitive (t_get t_set t_cleanup t_get' t_set' t_cleanup' : Z)
        (cache cache' : CalculationCache.t) (i i' : SolarCalculationInputs) :
  reachable cache -> reachable cache' -> valid_input i -> valid_input i' ->
  systemSize i = systemSize i' -> rateTier i = rateTier i' ->
  installationType i = installationType i' -> panelQuality i = panelQuality i' ->
  batteryStorage i = batteryStorage i' ->
  toLowerCase (location i) = toLowerCase (location i') ->
  fst (calculateCommercialSolar t_get t_set t_cleanup i cache)
  = fst (calculateCommercialSolar t_get' t_set' t_cleanup' i' cache').
Proof.
  intros Hr Hr' Hv Hv' Hs Ht Hi Hp Hb Hl.
  rewrite (call_valid _ _ _ i cache Hr Hv), (call_valid _ _ _ i' cache' Hr' Hv').
  f_equal. apply result_irradiance; try assumption.
  unfold Local.irradiance, Local.locationKey. by rewrite Hl.
Qed.

Lemma kelowna_upper_valid : valid_input kelowna_upper.
Proof. repeat split; try reflexivity; discriminate. Qed.

Lemma kelowna_lower_valid : valid_input kelowna_lower.
Proof. repeat split; try reflexivity; discriminate. Qed.

Lemma location_case_insensitive_witness :
  CalculationCache.generateKey kelowna_upper <> CalculationCache.generateKey kelowna_lower /\
  Local.irradiance kelowna_upper = 3.8%float /\
  fst (calculateCommercialSolar 0 0 0 kelowna_upper ∅)
  = fst (calculateCommercialSolar 0 0 0 kelowna_lower ∅).
Proof.
  split; [vm_compute; discriminate|]. split; [vm_compute; reflexivity|].
  exact (location_case_insensitive 0 0 0 0 0 0 ∅ ∅ kelowna_upper kelowna_lower
           reachable_new reachable_new kelowna_upper_valid kelowna_lower_valid
           eq_refl eq_refl eq_refl eq_refl eq_refl eq_refl).
Defined.

Lemma inherited_cases (k : string) :
  inherited k = true -> In k Object_prototype_keys.
Proof.
  unfold inherited. intros H. apply existsb_exists in H as (x & Hx & E).
  apply String.eqb_eq in E. by subst.
Qed.

(** X9.  What the two lookups can yield.  The irradiance is one of the six
    values of the table, 3.3 when the table does not list the lower-cased
    location, unless that names a member every object inherits
    (constructor, __proto__): then it is NaN.  The rate is one of the four
    rates of the table, 0.1059 for a tier it does not list, unless the tier
    names an inherited member (toString, valueOf, ...): then it is NaN, and
    so are the annualSavings, paybackPeriod and roi25Year that are returned. *)
Theorem lookups_yield_table_values_or_nan (i : SolarCalculationInputs) :
  (inherited (Local.locationKey i) = false ->
     In (Local.irradiance i) [3.2; 3.5; 3.8; 3.6; 3.1; 3.3]%float) /\
  (inherited (Local.locationKey i) = true ->
     Local.irradiance i = PrimFloat.nan) /\
  (inherited (rateTier i) = false ->
     In (Local.energyRate i) [0.1139; 0.1059; 0.0879; 0.0759]%float) /\
  (inherited (rateTier i) = true ->
     Local.energyRate i = PrimFloat.nan /\
     Results.annualSavings (result i) = PrimFloat.nan /\
     Results.paybackPeriod (result i) = PrimFloat.nan /\
     Results.roi25Year (result i) = PrimFloat.nan).
Proof.
  assert (inherited (rateTier i) = true -> Local.energyRate i = PrimFloat.nan) as Hrate.
  { intros H%inherited_cases. unfold Local.energyRate.
    cbn [In Object_prototype_keys] in H.
    repeat (destruct H as [<-|H]; [vm_compute; reflexivity|]). destruct H. }
  split; [|split; [|split]].
  - intros H. unfold Local.irradiance, JS.get.
    destruct (JS.own BC_SOLAR_IRRADIANCE (Local.locationKey i)) as [v|] eqn:E.
    + cbn [JS.own BC_SOLAR_IRRADIANCE] in E.
      repeat (destruct (String.eqb _ (Local.locationKey i));
              [injection E as <-; vm_compute; tauto|]).
      discriminate E.
    + rewrite H. vm_compute. tauto.
  - intros H%inherited_cases. unfold Local.irradiance.
    cbn [In Object_prototype_keys] in H.
    repeat (destruct H as [<-|H]; [vm_compute; reflexivity|]). destruct H.
  - intros H. unfold Local.energyRate, JS.get.
    destruct (JS.own BC_COMMERCIAL_RATES (rateTier i)) as [v|] eqn:E.
    + cbn [JS.own BC_COMMERCIAL_RATES] in E.
      repeat (destruct (String.eqb _ (rateTier i));
              [injection E as <-; vm_compute; tauto|]).
      discriminate E.
    + rewrite H. vm_compute. tauto.
  - intros H. pose proof (Hrate H) as Hn. split; [exact Hn|].
    cbn [result Results.annualSavings Results.paybackPeriod Results.roi25Year].
    unfold Local.paybackPeriod, Local.roi25Year, Local.totalSavings25Year,
      Local.annualSavings.
    rewrite Hn.
    repeat first [rewrite mul_nan_r | rewrite div_nan_r | rewrite mul_nan_l
                 | rewrite sub_nan_l | rewrite div_nan_l].
    repeat split; vm_compute; reflexivity.
Qed.

(** X10.  Validation lets NaN through: an input whose systemSize is NaN, with
    positive usage and bill and the four options selected, raises no error;
    the computation returns a result whose annualProduction, totalCost,
    federalIncentives, netCost and annualSavings are NaN and whose
    cleanBcRebates is 0. *)
Theorem nan_size_passes_validation (i : SolarCalculationInputs) :
  PrimFloat.is_nan (systemSize i) = true ->
  (0 <? monthlyUsage i)%float = true -> (0 <? currentBill i)%float = true ->
  rateTier i <> "" -> installationType i <> "" ->
  panelQuality i <> "" -> batteryStorage i <> "" ->
  compute i = inr (result i) /\
  Results.annualProduction (result i) = PrimFloat.nan /\
  Results.totalCost (result i) = PrimFloat.nan /\
  Results.federalIncentives (result i) = PrimFloat.nan /\
  Results.netCost (result i) = PrimFloat.nan /\
  Results.annualSavings (result i) = PrimFloat.nan /\
  Results.cleanBcRebates (result i) = 0%float.
Proof.
  intros Hn%is_nan_eq Hu Hb Hr Hi Hp Hbat.
  assert (validate i = None) as Hv.
  { unfold validate. rewrite Hn, (ltb_leb_false _ Hu), (ltb_leb_false _ Hb).
    unfold falsy_string. apply String.eqb_neq in Hr, Hi, Hp, Hbat.
    rewrite Hr, Hi, Hp, Hbat. reflexivity. }
  assert (Local.annualProduction i = PrimFloat.nan) as Hap.
  { unfold Local.annualProduction. by rewrite Hn, !mul_nan_l. }
  assert (Local.totalCost i = PrimFloat.nan) as Htc.
  { unfold Local.totalCost. rewrite Hn, mul_nan_l.
    repeat (destruct (String.eqb (batteryStorage i) _); [apply add_nan_l|]).
    reflexivity. }
  unfold compute. rewrite Hv. split; [reflexivity|].
  cbn [result Results.annualProduction Results.totalCost Results.federalIncentives
       Results.netCost Results.annualSavings Results.cleanBcRebates].
  unfold Local.netCost, Local.federalIncentives, Local.annualSavings.
  rewrite Hap, Htc.
  repeat first [rewrite mul_nan_l | rewrite sub_nan_l | rewrite sub_nan_r].
  unfold Local.cleanBcRebates. rewrite Hn.
  repeat split; vm_compute; reflexivity.
Qed.

Lemma nan_size_passes_validation_witness :
  PrimFloat.is_nan (systemSize nan_size) = true /\
  fst (calculateCommercialSolar 0 0 0 nan_size ∅) = inr (result nan_size) /\
  Results.annualProduction (result nan_size) = PrimFloat.nan.
Proof.
  split; [reflexivity|]. split; [vm_compute; reflexivity|].
  refine (proj1 (proj2 (nan_size_passes_validation nan_size _ _ _ _ _ _ _)));
    first [reflexivity | discriminate].
Defined.

Example rate_tier_toString_returns_nan :
  valid_input rate_tier_toString /\
  fst (calculateCommercialSolar 0 0 0 rate_tier_toString ∅) = inr (result rate_tier_toString) /\
  Results.annualProduction (result rate_tier_toString) = 102383%float /\
  Results.annualSavings (result rate_tier_toString) = PrimFloat.nan.
Proof.
  split; [repeat split; try reflexivity; discriminate|].
  repeat split; vm_compute; reflexivity.
Qed.

(** ** Roof area and system size *)

Section Order.
Local Open Scope float_scope.

Lemma SFcompare_None x y :
  SFcompare x y = None -> x = S754_nan \/ y = S754_nan.
Proof.
  destruct x as [[]|[]| |[] m e], y as [[]|[]| |[] m' e']; cbn [SFcompare];
    intros H; try discriminate H; auto.
Qed.

(** [a < b] gives [a <= b]. *)
Lemma ltb_leb a b : (a <? b) = true -> (a <=? b) = true.
Proof.
  rewrite FloatAxioms.ltb_spec, FloatAxioms.leb_spec. unfold SFltb, SFleb.
  by destruct (SFcompare (Prim2SF a) (Prim2SF b)) as [[]|].
Qed.

(** Two numbers that are not NaN are comparable: not [a <= b] gives [b < a]. *)
Lemma not_leb_ltb a b :
  PrimFloat.is_nan a = false -> PrimFloat.is_nan b = false ->
  (a <=? b) = false -> (b <? a) = true.
Proof.
  unfold PrimFloat.is_nan. rewrite !FloatAxioms.eqb_spec, FloatAxioms.ltb_spec,
    FloatAxioms.leb_spec.
  unfold SFltb, SFleb, SFeqb. rewrite (SFcompare_antisym (Prim2SF a) (Prim2SF b)).
  intros Ha Hb.
  destruct (SFcompare (Prim2SF a) (Prim2SF b)) as [[]|] eqn:E; try done.
  apply SFcompare_None in E as [E|E]; rewrite E in *; discriminate.
Qed.

(** A number that something is [<=] is not NaN. *)
Lemma leb_not_nan c a : (c <=? a) = true -> PrimFloat.is_nan a = false.
Proof.
  unfold PrimFloat.is_nan. rewrite FloatAxioms.leb_spec, FloatAxioms.eqb_spec.
  unfold SFleb, SFeqb.
  destruct (Prim2SF a) as [s|s| |s m e] eqn:Ea; intros H.
  - by destruct s.
  - by destruct s.
  - by destruct (Prim2SF c) as [[]|[]| |[]].
  - cbn [SFcompare]. rewrite Z.compare_refl.
    change (PosDef.Pos.compare_cont Eq m m) with (Pos.compare m m).
    rewrite Pos.compare_refl. by destruct s.
Qed.

(** At least 20 is not at most 0. *)
Lemma leb_20_not_leb_0 x : (20 <=? x) = true -> (x <=? 0) = false.
Proof.
  rewrite !FloatAxioms.leb_spec.
  change (Prim2SF 20) with (S754_finite false 5629499534213120 (-48)).
  change (Prim2SF 0) with (S754_zero false).
  unfold SFleb. by destruct (Prim2SF x) as [[]|[]| |[] m e].
Qed.

Lemma Math_min_nan_r x : Math_min x PrimFloat.nan = PrimFloat.nan.
Proof.
  unfold Math_min. change (PrimFloat.is_nan PrimFloat.nan) with true.
  by rewrite orb_true_r.
Qed.

Lemma Math_max_20 x :
  PrimFloat.is_nan (Math_max 20 x) = true \/ (20 <=? Math_max 20 x) = true.
Proof.
  unfold Math_max. change (PrimFloat.is_nan 20) with false. cbn [orb].
  destruct (PrimFloat.is_nan x); [by left|]. right.
  destruct (20 <? x) eqn:L; [by apply ltb_leb|].
  by destruct (x <? 20).
Qed.
End Order.

(** X11.  estimateRoofArea: a building type the table does not list is
    estimated like "Other", at half the floor area; a floor area of zero
    gives a roof area of zero for every building type; a building type that
    names a member every object inherits (constructor, toString, ...), or a
    floor area that is NaN, gives NaN. *)
Theorem estimateRoofArea_fallbacks (buildingSquareFootage : number) (buildingType : string) :
  (JS.get roofAreaFactors buildingType = Undefined ->
     estimateRoofArea buildingSquareFootage buildingType
     = estimateRoofArea buildingSquareFootage "Other" /\
     estimateRoofArea buildingSquareFootage buildingType
     = Math_round (buildingSquareFootage * 0.5)%float) /\
  (inherited buildingType = false -> estimateRoofArea 0 buildingType = 0%float) /\
  (inherited buildingType = true ->
     estimateRoofArea buildingSquareFootage buildingType = PrimFloat.nan) /\
  estimateRoofArea PrimFloat.nan buildingType = PrimFloat.nan.
Proof.
  split; [|split; [|split]].
  - intros H. unfold estimateRoofArea. rewrite H. split; reflexivity.
  - intros H. unfold estimateRoofArea, JS.get.
    destruct (JS.own roofAreaFactors buildingType) as [v|] eqn:E.
    + cbn [JS.own roofAreaFactors] in E.
      repeat (destruct (String.eqb _ buildingType);
              [injection E as <-; vm_compute; reflexivity|]).
      discriminate E.
    + rewrite H. vm_compute. reflexivity.
  - intros H%inherited_cases. unfold estimateRoofArea.
    cbn [In Object_prototype_keys] in H.
    repeat (destruct H as [<-|H];
            [cbn [JS.get JS.own roofAreaFactors String.eqb Ascii.eqb Bool.eqb inherited
                  existsb Object_prototype_keys or_else ToNumber orb];
             rewrite mul_nan_r; reflexivity|]).
    destruct H.
  - unfold estimateRoofArea. rewrite mul_nan_l. reflexivity.
Qed.

(** X12.  optimizeSystemSize never recommends less than the 20 kW minimum:
    its result is NaN, which it is whenever the roof area or the monthly
    usage is NaN, or it is at least 20.  A recommended size that is a number
    is therefore accepted by the size check of calculateCommercialSolar and
    falls in one of the two CleanBC rebate tiers, never under the threshold. *)
Theorem optimizeSystemSize_minimum (availableRoofArea monthlyUsage peakDemand : number)
        (i : SolarCalculationInputs) :
  (PrimFloat.is_nan availableRoofArea = true \/ PrimFloat.is_nan monthlyUsage = true ->
     optimizeSystemSize availableRoofArea monthlyUsage peakDemand = PrimFloat.nan) /\
  (PrimFloat.is_nan (optimizeSystemSize availableRoofArea monthlyUsage peakDemand) = true \/
   (20 <=? optimizeSystemSize availableRoofArea monthlyUsage peakDemand)%float = true) /\
  ((20 <=? optimizeSystemSize availableRoofArea monthlyUsage peakDemand)%float = true ->
     (optimizeSystemSize availableRoofArea monthlyUsage peakDemand <=? 0)%float = false /\
     Local.cleanBcRebates
       (with_systemSize (optimizeSystemSize availableRoofArea monthlyUsage peakDemand) i)
     = if (optimizeSystemSize availableRoofArea monthlyUsage peakDemand <=? 100)%float
       then Math_min (optimizeSystemSize availableRoofArea monthlyUsage peakDemand * 500) 50000
       else Math_min (optimizeSystemSize availableRoofArea monthlyUsage peakDemand * 400) 125000).
Proof.
  split; [|split].
  - unfold optimizeSystemSize. cbv zeta. intros [H%is_nan_eq | H%is_nan_eq]; rewrite H.
    + rewrite div_nan_l. vm_compute. reflexivity.
    + repeat first [rewrite mul_nan_l | rewrite div_nan_l | rewrite Math_min_nan_r].
      vm_compute. reflexivity.
  - unfold optimizeSystemSize. apply Math_max_20.
  - generalize (optimizeSystemSize availableRoofArea monthlyUsage peakDemand).
    intros r H. split; [by apply leb_20_not_leb_0|].
    unfold Local.cleanBcRebates. cbn [with_systemSize systemSize]. rewrite H. cbn [andb].
    destruct (r <=? 100)%float eqn:L; [reflexivity|].
    rewrite (not_leb_ltb r 100); [reflexivity | | reflexivity | exact L].
    by apply (leb_not_nan 20).
Qed.

(** ** What the table holds, and under which keys *)

(** X13.  Entries are created by successful computations only: in every
    state of the cache reached from the empty one by calls of
    calculateCommercialSolar and clear, each entry sits under the key of an
    input that passed validation and holds the result the engine computes
    for that input. *)
Theorem stored_entries_are_results (cache : CalculationCache.t)
        (k : CalculationCache.key) (e : CacheEntry) :
  reachable cache -> cache !! k = Some e ->
  exists i, CalculationCache.generateKey i = k /\ validate i = None /\
            entry_result e = result i /\ compute i = inr (entry_result e).
Proof.
  intros Hr. revert k e.
  induction Hr as [| t1 t2 t3 i cache _ IH | cache _ _]; intros k e He.
  - by rewrite lookup_empty in He.
  - assert (cache_sound cache) as Hs.
    { intros k' e' He'. destruct (IH k' e' He') as (i' & ? & ? & ? & _). by exists i'. }
    destruct (cache_from_call _ t1 t2 t3 i cache (fun H => H) Hs k e He)
      as (i' & Hk & Hv & Hres).
    exists i'. repeat split; try assumption. unfold compute. by rewrite Hv, Hres.
  - unfold CalculationCache.clear in He. by rewrite lookup_empty in He.
Qed.

Lemma stored_entries_are_results_witness :
  reachable after_scenario1 /\
  after_scenario1 !! CalculationCache.generateKey scenario1
  = Some {| entry_result := scenario1_result; timestamp := 0 |} /\
  exists i, CalculationCache.generateKey i = CalculationCache.generateKey scenario1 /\
            validate i = None /\
            scenario1_result = result i /\ compute i = inr scenario1_result.
Proof.
  assert (after_scenario1 !! CalculationCache.generateKey scenario1
          = Some {| entry_result := scenario1_result; timestamp := 0 |}) as H
    by (vm_compute; reflexivity).
  split; [exact after_scenario1_reachable|]. split; [exact H|].
  exact (stored_entries_are_results after_scenario1 _ _ after_scenario1_reachable H).
Defined.

Lemma not_finite_token (x : number) :
  PrimFloat.is_finite x = false -> JSON.number_token x = None.
Proof.
  unfold PrimFloat.is_finite, PrimFloat.is_nan, PrimFloat.is_infinity, JSON.number_token.
  rewrite !FloatAxioms.eqb_spec, FloatAxioms.abs_spec.
  change (Prim2SF PrimFloat.infinity) with (S754_infinity false).
  destruct (Prim2SF x) as [s|s| |s m e]; try reflexivity; unfold SFeqb; cbn [SFabs SFcompare].
  - by destruct s.
  - rewrite Z.compare_refl.
    change (PosDef.Pos.compare_cont Eq m m) with (Pos.compare m m).
    rewrite Pos.compare_refl. by destruct s.
Qed.

(** X14.  The key does not tell the numbers that are not finite apart:
    inputs that differ only in that their systemSize is NaN, +Infinity or
    -Infinity have the same cache key, and so have inputs that differ only in
    the sign of a zero systemSize. *)
Theorem non_finite_sizes_share_key (i : SolarCalculationInputs) (x y : number) :
  (PrimFloat.is_finite x = false -> PrimFloat.is_finite y = false ->
     CalculationCache.generateKey (with_systemSize x i)
     = CalculationCache.generateKey (with_systemSize y i)) /\
  CalculationCache.generateKey (with_systemSize 0 i)
  = CalculationCache.generateKey (with_systemSize (-0) i).
Proof.
  split.
  - intros Hx Hy. unfold CalculationCache.generateKey.
    cbn [with_systemSize systemSize monthlyUsage currentBill rateTier installationType
         panelQuality batteryStorage location].
    by rewrite (not_finite_token x Hx), (not_finite_token y Hy).
  - reflexivity.
Qed.

(** ** Where the shared key of the non-finite numbers reaches a positive input *)

Lemma result_nan_size_differs : result nan_size <> result infinite_size.
Proof.
  intros E. apply (f_equal Results.cleanBcRebates) in E. revert E.
  vm_compute. float_discriminate.
Qed.

(** C6, at the input where the code departs from it.  A systemSize of
    +Infinity is positive and passes validation, and its direct computation
    returns a result with a rebate of 125000.  A systemSize of NaN passes
    validation too; JSON.stringify spells both null, so the two inputs share
    their key.  On the cache a NaN call leaves, the lookup for the +Infinity
    input hands out the NaN input's result, with a rebate of 0, and so does
    the call: the cache in front of the engine changes the returned value. *)
Theorem infinite_size_answered_with_nan_result :
  (0 <? systemSize infinite_size)%float = true /\
  (0 <? monthlyUsage infinite_size)%float = true /\
  (0 <? currentBill infinite_size)%float = true /\
  compute infinite_size = inr (result infinite_size) /\
  reachable after_nan_size /\
  CalculationCache.generateKey nan_size = CalculationCache.generateKey infinite_size /\
  fst (CalculationCache.get 1 infinite_size after_nan_size) = Some (result nan_size) /\
  fst (calculateCommercialSolar 1 1 1 infinite_size after_nan_size) = inr (result nan_size) /\
  Results.cleanBcRebates (result nan_size) = 0%float /\
  Results.cleanBcRebates (result infinite_size) = 125000%float /\
  result nan_size <> result infinite_size.
Proof.
  repeat match goal with |- _ /\ _ => split end;
    try (vm_compute; reflexivity).
  - apply reachable_call, reachable_new.
  - exact result_nan_size_differs.
Qed.

(** C9, at the input where the code departs from it.  Three calls in a row:
    a systemSize of +Infinity at time 0 returns its computed result; a
    systemSize of NaN just after that entry has expired is computed and
    stored under the same key; the first input again, one millisecond later,
    is answered from the cache with the NaN input's result.  The first and
    the third call have the same eight fields and return different results. *)
Theorem infinite_size_calls_disagree :
  (0 <? systemSize infinite_size)%float = true /\
  validate infinite_size = None /\
  reachable after_nan_refill /\
  fst (calculateCommercialSolar 0 0 0 infinite_size ∅) = inr (result infinite_size) /\
  fst (calculateCommercialSolar 300001 300001 300001 nan_size after_infinite_size)
  = inr (result nan_size) /\
  fst (calculateCommercialSolar 300002 300002 300002 infinite_size after_nan_refill)
  = inr (result nan_size) /\
  result nan_size <> result infinite_size.
Proof.
  repeat match goal with |- _ /\ _ => split end;
    try (vm_compute; reflexivity).
  - do 2 apply reachable_call. apply reachable_new.
  - exact result_nan_size_differs.
Qed.
